(** * Chaincode support: the invocation orchestrator of the peer

    A shallow embedding of [core/chaincode/chaincode_support.go]
    (Launch, LaunchInit, Stop, Invoke, InvokeInit, execute, Execute,
    ExecuteInit, createCCMessage and processChaincodeExecutionResult; the
    constructor and the stream registration entry point are left out)
    together with the
    properties of the orchestration layer that the design document states.

    Conventions of the embedding:
    - a Go pointer that the code tests against [nil] or that may be [nil]
      is an [option]; a Go [(value, error)] result is a pair of options,
      because the code inspects both components independently;
    - [[]byte] and [string] are both [string] (a Rocq string is a sequence
      of bytes), so that [%s] of a byte slice is the identity;
    - [int32] enums and [time.Duration] are [Z] (no arithmetic is done on
      them here, so no wrap-around arises);
    - the handler registry, the state of the external collaborators and the
      sequence of collaborator calls are threaded explicitly through a small
      state monad whose second outcome is a Go panic. *)

From Stdlib Require Import ZArith String Ascii List Bool.
From stdpp Require Import base option gmap strings pretty.

Local Open Scope string_scope.
Local Open Scope list_scope.
Local Open Scope Z_scope.

(** ** Go errors ([github.com/pkg/errors]) *)

Module errors.

(** The error values this file builds or receives. [New] stands for
    [errors.New] and [errors.Errorf] (the text is already formatted),
    [Wrap] for [errors.Wrapf] and [WithMessage] for
    [errors.WithMessage]. Collaborators return values of the same type. *)
Inductive error : Type :=
| New (text : string)
| Wrap (cause : error) (message : string)
| WithMessage (cause : error) (message : string).

(** [err.Error()]: a wrapped error prints its message, a colon and the
    text of its cause. *)
Fixpoint Error (e : error) : string :=
  match e with
  | New text => text
  | Wrap cause message => message +:+ ": " +:+ Error cause
  | WithMessage cause message => message +:+ ": " +:+ Error cause
  end.

End errors.
Export errors.

(** ** Text containment, used to state what an error message mentions *)

(** [is_prefix t s]: [t] is a prefix of [s]. *)
Fixpoint is_prefix (t s : string) : bool :=
  match t, s with
  | EmptyString, _ => true
  | String a t', String b s' => if Ascii.eqb a b then is_prefix t' s' else false
  | String _ _, EmptyString => false
  end.

(** [mentions s t]: the text [t] occurs in [s] as a contiguous run. *)
Fixpoint mentions (s t : string) : bool :=
  is_prefix t s ||
  match s with
  | EmptyString => false
  | String _ s' => mentions s' t
  end.

(** ** Data model *)

(** [ccprovider.CCContext]: the invocation context. The declaration is in
    [core/common/ccprovider]; the fields listed are the ones the
    orchestrator reads. *)
Record CCContext : Type := {
  ChainID : string;
  Name : string;
  Version : string;
  TxID : string;
  ProposalDecorations : gmap string string
}.

(** [pb.ChaincodeInput] *)
Record ChaincodeInput : Type := {
  Args : list string;
  Decorations : gmap string string
}.

(** [pb.ChaincodeID] *)
Record ChaincodeID : Type := {
  cid_Path : string;
  cid_Name : string;
  cid_Version : string
}.

(** [pb.ChaincodeSpec]; [ChaincodeId] and [Input] are pointers. *)
Record ChaincodeSpec : Type := {
  spec_Type : Z;
  ChaincodeId : option ChaincodeID;
  Input : option ChaincodeInput;
  Timeout : Z
}.

(** [pb.ChaincodeDeploymentSpec] *)
Record ChaincodeDeploymentSpec : Type := {
  cds_ChaincodeSpec : option ChaincodeSpec;
  CodePackage : string;
  ExecEnv : Z
}.

(** [pb.ChaincodeInvocationSpec] *)
Record ChaincodeInvocationSpec : Type := {
  cis_ChaincodeSpec : option ChaincodeSpec
}.

(** [pb.ChaincodeEvent] *)
Record ChaincodeEvent : Type := {
  ev_ChaincodeId : string;
  ev_TxId : string;
  EventName : string;
  ev_Payload : string
}.

(** [pb.ChaincodeMessage]; [Type_] is the [int32] enum
    [pb.ChaincodeMessage_Type]. *)
Record ChaincodeMessage : Type := {
  Type_ : Z;
  Payload : string;
  Txid : string;
  msg_ChaincodeEvent : option ChaincodeEvent;
  ChannelId : string
}.

(** [pb.Response] *)
Record Response : Type := {
  Status : Z;
  Message : string;
  resp_Payload : string
}.

(** [ccprovider.ChaincodeContainerInfo] *)
Record ChaincodeContainerInfo : Type := {
  ccci_Name : string;
  ccci_Version : string;
  ccci_Path : string;
  ccci_Type : string;
  ccci_CodePackage : string;
  ContainerType : string
}.

(** [context.Context] is opaque to this file: it is only handed on to the
    handler. *)
Inductive context_Context : Type := ctx (id : N).

(** A [*Handler]: the identity of a per-connection stream handler. *)
Definition HandlerRef : Type := N.

(** ** The world the orchestrator runs in *)

(** What the collaborators can read and change: the shared handler registry
    (canonical name to handler) and their own state, of a type [E] this file
    knows nothing about. *)
Record Sys (E : Type) : Type := {
  HandlerRegistry : gmap string HandlerRef;
  ext : E
}.
Arguments HandlerRegistry {E} _.
Arguments ext {E} _.

(** The calls this file makes on its collaborators and on the logger, in
    the order they are made. *)
Inductive Call : Type :=
| Lifecycle_ChaincodeContainerInfo_call (chainID chaincodeID : string)
| Launcher_Launch_call (ccci : option ChaincodeContainerInfo)
| Runtime_Stop_call (ccci : option ChaincodeContainerInfo)
| Handler_Execute_call (handler : HandlerRef) (ctxt : context_Context)
    (cccid : CCContext) (msg : option ChaincodeMessage) (timeout : Z)
| Logger_Debugf_call (text : string)
| Logger_Error_call (text : string).

Record World (E : Type) : Type := {
  sys : Sys E;
  calls : list Call
}.
Arguments sys {E} _.
Arguments calls {E} _.

(** ** The interfaces declared by the file *)

Module Runtime.
(** [type Runtime interface { Start; Stop }] *)
Record t (E : Type) : Type := {
  Start : option ChaincodeContainerInfo -> string -> Sys E -> option error * Sys E;
  Stop : option ChaincodeContainerInfo -> Sys E -> option error * Sys E
}.
Arguments Start {E} _.
Arguments Stop {E} _.
End Runtime.

Module Launcher.
(** [type Launcher interface { Launch }] *)
Record t (E : Type) : Type := {
  Launch : option ChaincodeContainerInfo -> Sys E -> option error * Sys E
}.
Arguments Launch {E} _.
End Launcher.

Module Lifecycle.
(** [type Lifecycle interface]; [ChaincodeDefinition] is not called in this
    file and is left out. *)
Record t (E : Type) : Type := {
  ChaincodeContainerInfo :
    string -> string -> Sys E ->
    (option ChaincodeContainerInfo * option error) * Sys E
}.
Arguments ChaincodeContainerInfo {E} _.
End Lifecycle.

(** [type ChaincodeSupport struct]. [HandlerRegistry] is a pointer to the
    shared registry, which lives in [Sys]; [ACLProvider] and
    [SystemCCProvider] are only handed to new stream handlers. *)
Record ChaincodeSupport (E : Type) : Type := {
  Keepalive : Z;
  ExecuteTimeout : Z;
  UserRunsCC : bool;
  Runtime : Runtime.t E;
  Launcher : Launcher.t E;
  Lifecycle : Lifecycle.t E
}.
Arguments Keepalive {E} _.
Arguments ExecuteTimeout {E} _.
Arguments UserRunsCC {E} _.
Arguments Runtime {E} _.
Arguments Launcher {E} _.
Arguments Lifecycle {E} _.

(** What the file imports from packages whose sources are elsewhere
    ([ccprovider], [pb], [proto]) and the [Execute] method of [*Handler].
    They are parameters of the development. A result [None] of
    [DeploymentSpecToChaincodeContainerInfo] or of [ChaincodeSpec_Name]
    stands for a nil pointer dereference inside the callee. *)
Class Imports (E : Type) : Type := {
  GetCanonicalName : CCContext -> string;
  DeploymentSpecToChaincodeContainerInfo :
    option ChaincodeDeploymentSpec -> option ChaincodeContainerInfo;
  ChaincodeSpec_Name : option ChaincodeSpec -> option string;
  ChaincodeMessage_INIT : Z;
  ChaincodeMessage_TRANSACTION : Z;
  ChaincodeMessage_COMPLETED : Z;
  ChaincodeMessage_ERROR : Z;
  proto_Marshal : option ChaincodeInput -> string * option error;
  proto_Unmarshal : string -> Response * option error;
  Handler_Execute :
    HandlerRef -> context_Context -> CCContext -> option ChaincodeMessage -> Z ->
    Sys E -> (option ChaincodeMessage * option error) * Sys E
}.

(** ** Go computations: state passing, with panic as a second outcome *)

Inductive Outcome (E A : Type) : Type :=
| Returns (a : A) (w : World E)
| Panics.
Arguments Returns {E A} _ _.
Arguments Panics {E A}.

Definition Go (E A : Type) : Type := World E -> Outcome E A.

Definition go_ret {E A : Type} (a : A) : Go E A := fun w => Returns a w.

Definition go_bind {E A B : Type} (m : Go E A) (k : A -> Go E B) : Go E B :=
  fun w =>
    match m w with
    | Returns a w' => k a w'
    | Panics => Panics
    end.

(** A nil pointer dereference. *)
Definition go_panic {E A : Type} : Go E A := fun _ => Panics.

#[global] Instance go_mret {E : Type} : MRet (Go E) := fun A => @go_ret E A.
#[global] Instance go_mbind {E : Type} : MBind (Go E) :=
  fun A B k m => go_bind m k.

(** Record a call in the world. *)
Definition record {E : Type} (c : Call) : Go E unit :=
  fun w => Returns tt {| sys := sys w; calls := calls w ++ [c] |}.

(** Run a collaborator on the part of the world it can see, after
    recording the call. *)
Definition call {E A : Type} (c : Call) (f : Sys E -> A * Sys E) : Go E A :=
  fun w =>
    let '(a, s) := f (sys w) in
    Returns a {| sys := s; calls := calls w ++ [c] |}.

(** [chaincodeLogger.Debugf] and [chaincodeLogger.Error] *)
Definition Debugf {E : Type} (text : string) : Go E unit :=
  record (Logger_Debugf_call text).
Definition Error_ {E : Type} (text : string) : Go E unit :=
  record (Logger_Error_call text).

(** Modelled from the spec: [HandlerRegistry.Handler], whose source
    (the handler registry) is not part of this file. It is the registry's
    [Lookup(canonicalName) -> handler | absent]: it does not block and does
    not change the registry; nil is returned when no handler is registered
    under the name. *)
Definition Handler {E : Type} (cname : string) : Go E (option HandlerRef) :=
  fun w => Returns (HandlerRegistry (sys w) !! cname) w.

(** [GetChaincodeSpec] of a deployment spec and of an invocation spec, as
    the protocol buffer compiler generates them: the field of the receiver,
    and nil for a nil receiver. *)
Definition cds_GetChaincodeSpec (spec : option ChaincodeDeploymentSpec)
  : option ChaincodeSpec :=
  match spec with
  | Some s => cds_ChaincodeSpec s
  | None => None
  end.

Definition cis_GetChaincodeSpec (spec : option ChaincodeInvocationSpec)
  : option ChaincodeSpec :=
  match spec with
  | Some s => cis_ChaincodeSpec s
  | None => None
  end.

(** [ccci.Version = v] *)
Definition set_Version (ccci : ChaincodeContainerInfo) (v : string)
  : ChaincodeContainerInfo :=
  {| ccci_Name := ccci_Name ccci;
     ccci_Version := v;
     ccci_Path := ccci_Path ccci;
     ccci_Type := ccci_Type ccci;
     ccci_CodePackage := ccci_CodePackage ccci;
     ContainerType := ContainerType ccci |}.

(** [input.Decorations = d]. The Go write goes through the pointer the
    caller's spec holds; what is modelled is the value the rest of the
    function sees. *)
Definition set_Decorations (input : ChaincodeInput) (d : gmap string string)
  : ChaincodeInput :=
  {| Args := Args input; Decorations := d |}.

(** [event.ChaincodeId = name; event.TxId = txid] *)
Definition stamp (name txid : string) (event : ChaincodeEvent) : ChaincodeEvent :=
  {| ev_ChaincodeId := name;
     ev_TxId := txid;
     EventName := EventName event;
     ev_Payload := ev_Payload event |}.

(** ** The functions of [chaincode_support.go] *)

(** The text [Launch] logs in developer mode when the definition of the
    chaincode cannot be found. *)
Definition developer_mode_hint : string :=
  "You are attempting to perform an action other than Deploy on Chaincode that is not ready and you are in developer mode. Did you forget to Deploy your chaincode?".

Section chaincode_support.
Context {E : Type} `{!Imports E}.

(** Calls through the interface values held by [cs], each recorded. *)
Definition Launcher_Launch (cs : ChaincodeSupport E)
    (ccci : option ChaincodeContainerInfo) : Go E (option error) :=
  call (Launcher_Launch_call ccci) (Launcher.Launch (Launcher cs) ccci).

Definition Lifecycle_ChaincodeContainerInfo (cs : ChaincodeSupport E)
    (chainID chaincodeID : string)
  : Go E (option ChaincodeContainerInfo * option error) :=
  call (Lifecycle_ChaincodeContainerInfo_call chainID chaincodeID)
       (Lifecycle.ChaincodeContainerInfo (Lifecycle cs) chainID chaincodeID).

Definition Runtime_Stop (cs : ChaincodeSupport E)
    (ccci : option ChaincodeContainerInfo) : Go E (option error) :=
  call (Runtime_Stop_call ccci) (Runtime.Stop (Runtime cs) ccci).

Definition handler_Execute (handler : HandlerRef) (ctxt : context_Context)
    (cccid : CCContext) (msg : option ChaincodeMessage) (timeout : Z)
  : Go E (option ChaincodeMessage * option error) :=
  call (Handler_Execute_call handler ctxt cccid msg timeout)
       (Handler_Execute handler ctxt cccid msg timeout).

(** [func (cs *ChaincodeSupport) LaunchInit(cccid, spec) error] *)
Definition LaunchInit (cs : ChaincodeSupport E) (cccid : CCContext)
    (spec : option ChaincodeDeploymentSpec) : Go E (option error) :=
  let cname := GetCanonicalName cccid in
  h ← Handler cname;
  match h with
  | Some _ => mret None
  | None =>
      match DeploymentSpecToChaincodeContainerInfo spec with
      | None => go_panic
      | Some ccci =>
          let ccci := set_Version ccci (Version cccid) in
          Launcher_Launch cs (Some ccci)
      end
  end.

(** [func (cs *ChaincodeSupport) Launch(cccid, spec) error] *)
Definition Launch (cs : ChaincodeSupport E) (cccid : CCContext)
    (spec : option ChaincodeInvocationSpec) : Go E (option error) :=
  let cname := GetCanonicalName cccid in
  h ← Handler cname;
  match h with
  | Some _ => mret None
  | None =>
      match ChaincodeSpec_Name (cis_GetChaincodeSpec spec) with
      | None => go_panic
      | Some chaincodeName =>
          '(ccci, err) ← Lifecycle_ChaincodeContainerInfo cs (ChainID cccid) chaincodeName;
          match err with
          | Some err =>
              (if UserRunsCC cs
               then Error_ developer_mode_hint
               else mret tt);;
              mret (Some (Wrap err
                ("[channel " +:+ ChainID cccid +:+
                 "] failed to get chaincode container info for " +:+ chaincodeName)))
          | None => Launcher_Launch cs ccci
          end
      end
  end.

(** [func (cs *ChaincodeSupport) Stop(ccci) error] *)
Definition Stop (cs : ChaincodeSupport E) (ccci : option ChaincodeContainerInfo)
  : Go E (option error) :=
  err ← Runtime_Stop cs ccci;
  match err with
  | Some err => mret (Some err)
  | None => mret None
  end.

(** [func createCCMessage(messageType, cid, txid, cMsg)] *)
Definition createCCMessage (messageType : Z) (cid txid : string)
    (cMsg : option ChaincodeInput) : option ChaincodeMessage * option error :=
  let '(payload, err) := proto_Marshal cMsg in
  match err with
  | Some err => (None, Some err)
  | None =>
      let ccmsg :=
        {| Type_ := messageType;
           Payload := payload;
           Txid := txid;
           msg_ChaincodeEvent := None;
           ChannelId := cid |} in
      (Some ccmsg, None)
  end.

(** [func processChaincodeExecutionResult(cccid, resp, err)]. The stamp is
    written into the event the message points to; the event returned is
    that same object. *)
Definition processChaincodeExecutionResult (cccid : CCContext)
    (resp : option ChaincodeMessage) (err : option error)
  : option Response * option ChaincodeEvent * option error :=
  match err with
  | Some err =>
      (None, None, Some (Wrap err ("failed to execute transaction " +:+ TxID cccid)))
  | None =>
      match resp with
      | None =>
          (None, None, Some (New ("nil response from transaction " +:+ TxID cccid)))
      | Some resp =>
          let event := stamp (Name cccid) (TxID cccid) <$> msg_ChaincodeEvent resp in
          if Type_ resp =? ChaincodeMessage_COMPLETED then
            let '(res, err) := proto_Unmarshal (Payload resp) in
            match err with
            | Some err =>
                (None, None,
                 Some (Wrap err
                   ("failed to unmarshal response for transaction " +:+ TxID cccid)))
            | None => (Some res, event, None)
            end
          else if Type_ resp =? ChaincodeMessage_ERROR then
            (None, event,
             Some (New ("transaction returned with failure: " +:+ Payload resp)))
          else
            (None, None,
             Some (New ("unexpected response type " +:+ pretty (Type_ resp) +:+
                        " for transaction " +:+ TxID cccid)))
      end
  end.

(** [func (cs *ChaincodeSupport) execute(ctxt, cccid, msg)] *)
Definition execute (cs : ChaincodeSupport E) (ctxt : context_Context)
    (cccid : CCContext) (msg : option ChaincodeMessage)
  : Go E (option ChaincodeMessage * option error) :=
  let cname := GetCanonicalName cccid in
  Debugf ("canonical name: " +:+ cname);;
  handler ← Handler cname;
  match handler with
  | None =>
      Debugf ("chaincode is not running: " +:+ cname);;
      mret (None, Some (New ("unable to invoke chaincode " +:+ cname)))
  | Some handler =>
      '(ccresp, err) ← handler_Execute handler ctxt cccid msg (ExecuteTimeout cs);
      match err with
      | Some err => mret (None, Some (WithMessage err "error sending"))
      | None => mret (ccresp, None)
      end
  end.

(** [func (cs *ChaincodeSupport) InvokeInit(ctxt, cccid, spec)] *)
Definition InvokeInit (cs : ChaincodeSupport E) (ctxt : context_Context)
    (cccid : CCContext) (spec : option ChaincodeDeploymentSpec)
  : Go E (option ChaincodeMessage * option error) :=
  let cctyp := ChaincodeMessage_INIT in
  err ← LaunchInit cs cccid spec;
  match err with
  | Some err => mret (None, Some err)
  | None =>
      match cds_GetChaincodeSpec spec with
      | None => mret (None, Some (New "chaincode spec is nil"))
      | Some chaincodeSpec =>
          match Input chaincodeSpec with
          | None => go_panic
          | Some input =>
              let input := set_Decorations input (ProposalDecorations cccid) in
              let '(ccMsg, err) :=
                createCCMessage cctyp (ChainID cccid) (TxID cccid) (Some input) in
              match err with
              | Some err =>
                  mret (None, Some (WithMessage err "failed to create chaincode message"))
              | None => execute cs ctxt cccid ccMsg
              end
          end
      end
  end.

(** [func (cs *ChaincodeSupport) Invoke(ctxt, cccid, spec)] *)
Definition Invoke (cs : ChaincodeSupport E) (ctxt : context_Context)
    (cccid : CCContext) (spec : option ChaincodeInvocationSpec)
  : Go E (option ChaincodeMessage * option error) :=
  let cctyp := ChaincodeMessage_TRANSACTION in
  match cis_GetChaincodeSpec spec with
  | None => mret (None, Some (New "chaincode spec is nil"))
  | Some chaincodeSpec =>
      err ← Launch cs cccid spec;
      match err with
      | Some err => mret (None, Some err)
      | None =>
          match Input chaincodeSpec with
          | None => go_panic
          | Some input =>
              let input := set_Decorations input (ProposalDecorations cccid) in
              let '(ccMsg, err) :=
                createCCMessage cctyp (ChainID cccid) (TxID cccid) (Some input) in
              match err with
              | Some err =>
                  mret (None, Some (WithMessage err "failed to create chaincode message"))
              | None => execute cs ctxt cccid ccMsg
              end
          end
      end
  end.

(** [func (cs *ChaincodeSupport) ExecuteInit(ctxt, cccid, spec)] *)
Definition ExecuteInit (cs : ChaincodeSupport E) (ctxt : context_Context)
    (cccid : CCContext) (spec : option ChaincodeDeploymentSpec)
  : Go E (option Response * option ChaincodeEvent * option error) :=
  '(resp, err) ← InvokeInit cs ctxt cccid spec;
  mret (processChaincodeExecutionResult cccid resp err).

(** [func (cs *ChaincodeSupport) Execute(ctxt, cccid, spec)] *)
Definition Execute (cs : ChaincodeSupport E) (ctxt : context_Context)
    (cccid : CCContext) (spec : option ChaincodeInvocationSpec)
  : Go E (option Response * option ChaincodeEvent * option error) :=
  '(resp, err) ← Invoke cs ctxt cccid spec;
  mret (processChaincodeExecutionResult cccid resp err).

End chaincode_support.

(** ** Reading the record of calls *)

Definition is_Launcher_Launch_call (c : Call) : bool :=
  match c with
  | Launcher_Launch_call _ => true
  | _ => false
  end.

Definition is_Lifecycle_call (c : Call) : bool :=
  match c with
  | Lifecycle_ChaincodeContainerInfo_call _ _ => true
  | _ => false
  end.

Definition is_Handler_Execute_call (c : Call) : bool :=
  match c with
  | Handler_Execute_call _ _ _ _ _ => true
  | _ => false
  end.

Definition is_Logger_call (c : Call) : bool :=
  match c with
  | Logger_Debugf_call _ | Logger_Error_call _ => true
  | _ => false
  end.

(** How many times [Launcher.Launch] has been called. *)
Definition launches (cs : list Call) : nat :=
  length (List.filter is_Launcher_Launch_call cs).

(** The world an outcome leaves behind; a panic leaves [w0]. *)
Definition world_after {E A : Type} (w0 : World E) (o : Outcome E A) : World E :=
  match o with
  | Returns _ w => w
  | Panics => w0
  end.

(** A final response of the handler that breaks the protocol: no message
    at all, a message that is neither COMPLETED nor ERROR, or a COMPLETED
    message whose payload does not decode. *)
Definition protocol_violation {E : Type} `{!Imports E}
    (resp : option ChaincodeMessage) : Prop :=
  match resp with
  | None => True
  | Some m =>
      (Type_ m <> ChaincodeMessage_COMPLETED /\ Type_ m <> ChaincodeMessage_ERROR) \/
      (Type_ m = ChaincodeMessage_COMPLETED /\
       exists res err, proto_Unmarshal (Payload m) = (res, Some err))
  end.

(** ** Test doubles

    A small concrete peer on which the statements below are exercised: the
    external state is the list of units started so far. *)

Module doubles.

Definition E : Type := list string.

(** [Name()] of a chaincode spec, as the generated code of [pb] has it. *)
Definition Name_of (spec : option ChaincodeSpec) : option string :=
  match spec with
  | None => None
  | Some s =>
      match ChaincodeId s with
      | None => Some ""
      | Some i => Some (cid_Name i)
      end
  end.

Definition to_container_info (spec : option ChaincodeDeploymentSpec)
  : option ChaincodeContainerInfo :=
  match spec with
  | None => None
  | Some s =>
      Some {| ccci_Name := default "" (Name_of (cds_ChaincodeSpec s));
              ccci_Version := "";
              ccci_Path := "";
              ccci_Type := "GOLANG";
              ccci_CodePackage := CodePackage s;
              ContainerType := "DOCKER" |}
  end.

Definition marshal (input : option ChaincodeInput) : string * option error :=
  match input with
  | None => ("", Some (New "proto: Marshal called with nil"))
  | Some i => (String.concat "," (Args i), None)
  end.

Definition unmarshal (payload : string) : Response * option error :=
  if String.eqb payload "garbage"
  then ({| Status := 0; Message := ""; resp_Payload := "" |},
        Some (New "proto: cannot parse invalid wire-format data"))
  else ({| Status := 200; Message := "OK"; resp_Payload := payload |}, None).

Definition an_event : ChaincodeEvent :=
  {| ev_ChaincodeId := ""; ev_TxId := ""; EventName := "transferred";
     ev_Payload := "42" |}.

(** A terminal message of the given type and payload, carrying an event
    that the unit did not stamp. *)
Definition reply (cccid : CCContext) (ty : Z) (payload : string) : ChaincodeMessage :=
  {| Type_ := ty; Payload := payload; Txid := TxID cccid;
     msg_ChaincodeEvent := Some an_event; ChannelId := ChainID cccid |}.

(** Handler 1 completes, handler 2 reports a failure, handler 3 answers
    with a mid-protocol message, handler 4 returns nothing at all, handler 5
    completes with a payload that does not decode, every other handler
    times out. *)
Definition handler_execute (h : HandlerRef) (_ : context_Context)
    (cccid : CCContext) (msg : option ChaincodeMessage) (_ : Z) (s : Sys E)
  : (option ChaincodeMessage * option error) * Sys E :=
  match h with
  | 1%N => ((Some (reply cccid 6 "ok"), None), s)
  | 2%N => ((Some (reply cccid 7 "insufficient funds"), None), s)
  | 3%N => ((Some (reply cccid 4 ""), None), s)
  | 4%N => ((None, None), s)
  | 5%N => ((Some (reply cccid 6 "garbage"), None), s)
  | _ => ((None, Some (New "timeout expired while executing transaction")), s)
  end.

#[global] Instance imports : Imports E := {|
  GetCanonicalName := fun c => Name c +:+ ":" +:+ Version c;
  DeploymentSpecToChaincodeContainerInfo := to_container_info;
  ChaincodeSpec_Name := Name_of;
  ChaincodeMessage_INIT := 3;
  ChaincodeMessage_TRANSACTION := 5;
  ChaincodeMessage_COMPLETED := 6;
  ChaincodeMessage_ERROR := 7;
  proto_Marshal := marshal;
  proto_Unmarshal := unmarshal;
  Handler_Execute := handler_execute
|}.

(** The launcher starts the unit, which registers handler 1 under its
    canonical name; a unit called [broken] fails to start. *)
Definition launcher : Launcher.t E :=
  {| Launcher.Launch := fun ccci s =>
       match ccci with
       | None => (Some (New "nil container info"), s)
       | Some i =>
           if String.eqb (ccci_Name i) "broken"
           then (Some (New "error starting container"), s)
           else
             (None,
              {| HandlerRegistry :=
                   <[ccci_Name i +:+ ":" +:+ ccci_Version i := 1%N]>
                     (HandlerRegistry s);
                 ext := (ext s ++ [ccci_Name i])%list |})
       end |}.

(** The lifecycle knows the unit [token-contract] at version [v1]. *)
Definition lifecycle : Lifecycle.t E :=
  {| Lifecycle.ChaincodeContainerInfo := fun chainID name s =>
       if String.eqb name "token-contract"
       then ((Some {| ccci_Name := name; ccci_Version := "v1"; ccci_Path := "";
                      ccci_Type := "GOLANG"; ccci_CodePackage := "";
                      ContainerType := "DOCKER" |}, None), s)
       else ((None, Some (New ("could not find chaincode with name '" +:+ name +:+ "'"))), s) |}.

Definition runtime : Runtime.t E :=
  {| Runtime.Start := fun _ _ s => (None, s);
     Runtime.Stop := fun _ s => (None, s) |}.

Definition cs : ChaincodeSupport E :=
  {| Keepalive := 0; ExecuteTimeout := 30000000000; UserRunsCC := false;
     Runtime := runtime; Launcher := launcher; Lifecycle := lifecycle |}.

Definition cccid : CCContext :=
  {| ChainID := "ch1"; Name := "token-contract"; Version := "v1"; TxID := "t1";
     ProposalDecorations := ∅ |}.

Definition chaincodeSpec : ChaincodeSpec :=
  {| spec_Type := 1;
     ChaincodeId := Some {| cid_Path := ""; cid_Name := "token-contract";
                            cid_Version := "v1" |};
     Input := Some {| Args := ["transfer"; "alice"; "bob"]; Decorations := ∅ |};
     Timeout := 0 |}.

Definition invocation : option ChaincodeInvocationSpec :=
  Some {| cis_ChaincodeSpec := Some chaincodeSpec |}.

Definition deployment : option ChaincodeDeploymentSpec :=
  Some {| cds_ChaincodeSpec := Some chaincodeSpec; CodePackage := "";
          ExecEnv := 0 |}.

Definition ctxt : context_Context := ctx 0.

(** A peer on which nothing runs, and peers on which the unit is served by
    a given handler. *)
Definition idle : World E :=
  {| sys := {| HandlerRegistry := ∅; ext := [] |}; calls := [] |}.

Definition served_by (h : HandlerRef) : World E :=
  {| sys := {| HandlerRegistry := {[ "token-contract:v1" := h ]};
               ext := ["token-contract"] |};
     calls := [] |}.

End doubles.

(** ** Counting the calls on each collaborator *)

(** How many times [Lifecycle.ChaincodeContainerInfo] and a handler's
    [Execute] have been called. *)
Definition lifecycle_calls (cs : list Call) : nat :=
  length (List.filter is_Lifecycle_call cs).

Definition handler_calls (cs : list Call) : nat :=
  length (List.filter is_Handler_Execute_call cs).

(** The calls made on collaborators, the log lines left out. *)
Definition collaborator_calls (cs : list Call) : list Call :=
  List.filter (fun c => negb (is_Logger_call c)) cs.

(** [sent_as cs ctxt cccid ty c]: if [c] is a call of a handler, it hands
    on the caller's context and invocation context, the execute timeout of
    [cs], and a request of type [ty] that carries the transaction id and
    the channel id of the invocation context and no event. *)
Definition sent_as {E : Type} (cs : ChaincodeSupport E) (ctxt : context_Context)
    (cccid : CCContext) (ty : Z) (c : Call) : Prop :=
  match c with
  | Handler_Execute_call _ ctxt' cccid' msg timeout =>
      ctxt' = ctxt /\ cccid' = cccid /\ timeout = ExecuteTimeout cs /\
      exists payload,
        msg = Some {| Type_ := ty; Payload := payload; Txid := TxID cccid;
                      msg_ChaincodeEvent := None; ChannelId := ChainID cccid |}
  | _ => True
  end.

(** ** More test doubles: collaborators that fail *)

Module more_doubles.
Import doubles.

(** A marshaller that rejects an input without arguments. *)
Definition strict_marshal (input : option ChaincodeInput) : string * option error :=
  match input with
  | Some {| Args := []; Decorations := _ |} =>
      ("", Some (New "proto: required field not set"))
  | _ => marshal input
  end.

Definition strict_imports : Imports E := {|
  GetCanonicalName := fun c => Name c +:+ ":" +:+ Version c;
  DeploymentSpecToChaincodeContainerInfo := to_container_info;
  ChaincodeSpec_Name := Name_of;
  ChaincodeMessage_INIT := 3;
  ChaincodeMessage_TRANSACTION := 5;
  ChaincodeMessage_COMPLETED := 6;
  ChaincodeMessage_ERROR := 7;
  proto_Marshal := strict_marshal;
  proto_Unmarshal := unmarshal;
  Handler_Execute := handler_execute
|}.

(** A lifecycle that knows every chaincode at version [v1]. *)
Definition lifecycle_any : Lifecycle.t E :=
  {| Lifecycle.ChaincodeContainerInfo := fun chainID name s =>
       ((Some {| ccci_Name := name; ccci_Version := "v1"; ccci_Path := "";
                 ccci_Type := "GOLANG"; ccci_CodePackage := "";
                 ContainerType := "DOCKER" |}, None), s) |}.

(** A launcher that reports success although no handler has registered. *)
Definition launcher_silent : Launcher.t E :=
  {| Launcher.Launch := fun _ s => (None, s) |}.

Definition cs_any : ChaincodeSupport E :=
  {| Keepalive := 0; ExecuteTimeout := 30000000000; UserRunsCC := false;
     Runtime := runtime; Launcher := launcher; Lifecycle := lifecycle_any |}.

Definition cs_silent : ChaincodeSupport E :=
  {| Keepalive := 0; ExecuteTimeout := 30000000000; UserRunsCC := false;
     Runtime := runtime; Launcher := launcher_silent; Lifecycle := lifecycle |}.

Definition cs_dev : ChaincodeSupport E :=
  {| Keepalive := 0; ExecuteTimeout := 30000000000; UserRunsCC := true;
     Runtime := runtime; Launcher := launcher; Lifecycle := lifecycle |}.

Definition cccid_of (name : string) : CCContext :=
  {| ChainID := "ch1"; Name := name; Version := "v1"; TxID := "t1";
     ProposalDecorations := {[ "trace" := "on" ]} |}.

Definition spec_of (name : string) (input : option ChaincodeInput) : ChaincodeSpec :=
  {| spec_Type := 1;
     ChaincodeId := Some {| cid_Path := ""; cid_Name := name; cid_Version := "v1" |};
     Input := input;
     Timeout := 0 |}.

Definition invocation_of (name : string) (input : option ChaincodeInput)
  : option ChaincodeInvocationSpec :=
  Some {| cis_ChaincodeSpec := Some (spec_of name input) |}.

Definition deployment_of (name : string) (input : option ChaincodeInput)
  : option ChaincodeDeploymentSpec :=
  Some {| cds_ChaincodeSpec := Some (spec_of name input); CodePackage := "";
          ExecEnv := 0 |}.

Definition transfer : ChaincodeInput :=
  {| Args := ["transfer"; "alice"; "bob"]; Decorations := ∅ |}.

Definition container_info (name : string) : ChaincodeContainerInfo :=
  {| ccci_Name := name; ccci_Version := "v1"; ccci_Path := "";
     ccci_Type := "GOLANG"; ccci_CodePackage := ""; ContainerType := "DOCKER" |}.

End more_doubles.

(** ** Properties of text containment *)

Lemma append_assoc (a b c : string) : (a +:+ b) +:+ c = a +:+ (b +:+ c).
Proof.
  induction a as [|x a IH]; [reflexivity|].
  change (String x ((a +:+ b) +:+ c) = String x (a +:+ (b +:+ c))).
  rewrite IH. reflexivity.
Qed.

Lemma is_prefix_append (t b : string) : is_prefix t (t +:+ b) = true.
Proof.
  induction t as [|a t IH]; simpl; [reflexivity|].
  rewrite Ascii.eqb_refl. exact IH.
Qed.

Lemma is_prefix_append_l (t s b : string) :
  is_prefix t s = true -> is_prefix t (s +:+ b) = true.
Proof.
  revert s. induction t as [|a t IH]; intros s; simpl; [reflexivity|].
  destruct s as [|c s]; simpl; [discriminate|].
  destruct (Ascii.eqb a c); [apply IH | discriminate].
Qed.

Lemma is_prefix_split (t s : string) :
  is_prefix t s = true -> exists b, s = t +:+ b.
Proof.
  revert s. induction t as [|a t IH]; intros s; simpl.
  - intros _. exists s. reflexivity.
  - destruct s as [|c s]; [discriminate|].
    destruct (Ascii.eqb a c) eqn:Hac; [|discriminate].
    apply Ascii.eqb_eq in Hac. subst c.
    intros H. destruct (IH _ H) as [b ->]. exists b. reflexivity.
Qed.

Lemma mentions_here (s t : string) : is_prefix t s = true -> mentions s t = true.
Proof. intros H. destruct s; simpl in *; rewrite H; reflexivity. Qed.

Lemma mentions_append_r (a s t : string) :
  mentions s t = true -> mentions (a +:+ s) t = true.
Proof.
  intros H. induction a as [|c a IH]; simpl; [exact H|].
  rewrite IH. apply orb_true_r.
Qed.

Lemma mentions_append_l (s b t : string) :
  mentions s t = true -> mentions (s +:+ b) t = true.
Proof.
  induction s as [|c s IH]; simpl.
  - rewrite orb_false_r. intros H. apply mentions_here.
    apply (is_prefix_append_l t "" b H).
  - intros H. apply orb_true_iff in H. destruct H as [H|H].
    + apply (is_prefix_append_l t (String c s) b) in H.
      change (String c s +:+ b) with (String c (s +:+ b)) in H.
      rewrite H. reflexivity.
    + rewrite (IH H). apply orb_true_r.
Qed.

Lemma is_prefix_refl (t : string) : is_prefix t t = true.
Proof.
  induction t as [|c t IH]; simpl; [reflexivity|].
  rewrite Ascii.eqb_refl. exact IH.
Qed.

Lemma mentions_self (t : string) : mentions t t = true.
Proof. apply mentions_here, is_prefix_refl. Qed.

(** [mentions] decides occurrence as a contiguous run. *)
Lemma mentions_spec (s t : string) :
  mentions s t = true <-> exists a b, s = a +:+ t +:+ b.
Proof.
  split.
  - induction s as [|c s IH]; simpl.
    + rewrite orb_false_r. intros H. apply is_prefix_split in H.
      destruct H as [b Hb]. exists "", b. exact Hb.
    + intros H. apply orb_true_iff in H. destruct H as [H|H].
      * apply (is_prefix_split t (String c s)) in H.
        destruct H as [b Hb]. exists "", b. exact Hb.
      * destruct (IH H) as (a & b & ->). exists (String c a), b. reflexivity.
  - intros (a & b & ->). apply mentions_append_r, mentions_here, is_prefix_append.
Qed.

(** A formatted text [prefix ++ t] mentions [t]. *)
Lemma mentions_suffix (p t : string) : mentions (p +:+ t) t = true.
Proof. apply mentions_append_r, mentions_self. Qed.

(** Wrapping keeps what the message mentions and what the cause mentions. *)
Lemma Error_Wrap_mentions_message (e : error) (m t : string) :
  mentions m t = true -> mentions (Error (Wrap e m)) t = true.
Proof. intros H. simpl. apply mentions_append_l, H. Qed.

Lemma Error_Wrap_mentions_cause (e : error) (m t : string) :
  mentions (Error e) t = true -> mentions (Error (Wrap e m)) t = true.
Proof. intros H. simpl. apply mentions_append_r, mentions_append_r, H. Qed.

(** ** How the functions compose *)

Ltac go_unfold :=
  unfold mbind, go_mbind, go_bind, mret, go_mret, go_ret, go_panic,
    Launcher_Launch, Lifecycle_ChaincodeContainerInfo, handler_Execute,
    Debugf, Error_, call, record, Handler in *.

Section composition.
Context {E : Type} `{!Imports E}.
Variables (cs : ChaincodeSupport E) (ctxt : context_Context) (cccid : CCContext).

Lemma Execute_eq (spec : option ChaincodeInvocationSpec) (w : World E) :
  Execute cs ctxt cccid spec w =
  match Invoke cs ctxt cccid spec w with
  | Returns (resp, err) w' =>
      Returns (processChaincodeExecutionResult cccid resp err) w'
  | Panics => Panics
  end.
Proof.
  unfold Execute. go_unfold.
  destruct (Invoke cs ctxt cccid spec w) as [[resp err] w'|]; reflexivity.
Qed.

Lemma ExecuteInit_eq (spec : option ChaincodeDeploymentSpec) (w : World E) :
  ExecuteInit cs ctxt cccid spec w =
  match InvokeInit cs ctxt cccid spec w with
  | Returns (resp, err) w' =>
      Returns (processChaincodeExecutionResult cccid resp err) w'
  | Panics => Panics
  end.
Proof.
  unfold ExecuteInit. go_unfold.
  destruct (InvokeInit cs ctxt cccid spec w) as [[resp err] w'|]; reflexivity.
Qed.

Lemma Execute_of_Invoke spec w w' resp err :
  Invoke cs ctxt cccid spec w = Returns (resp, err) w' ->
  Execute cs ctxt cccid spec w =
  Returns (processChaincodeExecutionResult cccid resp err) w'.
Proof. intros H. rewrite Execute_eq, H. reflexivity. Qed.

Lemma ExecuteInit_of_InvokeInit spec w w' resp err :
  InvokeInit cs ctxt cccid spec w = Returns (resp, err) w' ->
  ExecuteInit cs ctxt cccid spec w =
  Returns (processChaincodeExecutionResult cccid resp err) w'.
Proof. intros H. rewrite ExecuteInit_eq, H. reflexivity. Qed.

Lemma Execute_inv spec w w' r :
  Execute cs ctxt cccid spec w = Returns r w' ->
  exists resp err,
    Invoke cs ctxt cccid spec w = Returns (resp, err) w' /\
    r = processChaincodeExecutionResult cccid resp err.
Proof.
  rewrite Execute_eq.
  destruct (Invoke cs ctxt cccid spec w) as [[resp err] w1|]; [|discriminate].
  intros [= <- <-]. exists resp, err. split; reflexivity.
Qed.

Lemma ExecuteInit_inv spec w w' r :
  ExecuteInit cs ctxt cccid spec w = Returns r w' ->
  exists resp err,
    InvokeInit cs ctxt cccid spec w = Returns (resp, err) w' /\
    r = processChaincodeExecutionResult cccid resp err.
Proof.
  rewrite ExecuteInit_eq.
  destruct (InvokeInit cs ctxt cccid spec w) as [[resp err] w1|]; [|discriminate].
  intros [= <- <-]. exists resp, err. split; reflexivity.
Qed.

(** [execute] when no handler is registered, and when one is. *)
Lemma execute_absent msg w :
  HandlerRegistry (sys w) !! GetCanonicalName cccid = None ->
  execute cs ctxt cccid msg w =
  Returns (None, Some (New ("unable to invoke chaincode " +:+ GetCanonicalName cccid)))
    {| sys := sys w;
       calls := (calls w ++ [Logger_Debugf_call ("canonical name: " +:+ GetCanonicalName cccid)])
                ++ [Logger_Debugf_call ("chaincode is not running: " +:+ GetCanonicalName cccid)] |}.
Proof.
  intros H. unfold execute. go_unfold. simpl. rewrite H. reflexivity.
Qed.

Lemma execute_present msg w h :
  HandlerRegistry (sys w) !! GetCanonicalName cccid = Some h ->
  execute cs ctxt cccid msg w =
  let '((ccresp, err), s) :=
    Handler_Execute h ctxt cccid msg (ExecuteTimeout cs) (sys w) in
  Returns
    match err with
    | Some err => (None, Some (WithMessage err "error sending"))
    | None => (ccresp, None)
    end
    {| sys := s;
       calls := (calls w ++ [Logger_Debugf_call ("canonical name: " +:+ GetCanonicalName cccid)])
                ++ [Handler_Execute_call h ctxt cccid msg (ExecuteTimeout cs)] |}.
Proof.
  intros H. unfold execute. go_unfold. simpl. rewrite H. simpl.
  destruct (Handler_Execute h ctxt cccid msg (ExecuteTimeout cs) (sys w))
    as [[ccresp [err|]] s]; reflexivity.
Qed.

(** A message that [execute] returns is the one the handler returned. *)
Lemma execute_passes_through msg w w' resp :
  execute cs ctxt cccid msg w = Returns (Some resp, None) w' ->
  exists h,
    HandlerRegistry (sys w) !! GetCanonicalName cccid = Some h /\
    Handler_Execute h ctxt cccid msg (ExecuteTimeout cs) (sys w) =
      ((Some resp, None), sys w').
Proof.
  destruct (HandlerRegistry (sys w) !! GetCanonicalName cccid) as [h|] eqn:Hh.
  - rewrite (execute_present msg w h Hh).
    destruct (Handler_Execute h ctxt cccid msg (ExecuteTimeout cs) (sys w))
      as [[ccresp [err|]] s] eqn:He; [discriminate|].
    intros [= -> <-]. exists h. split; [reflexivity | exact He].
  - rewrite (execute_absent msg w Hh). discriminate.
Qed.

End composition.

(** ** Ensure-running: [Launch] and [LaunchInit] case by case *)

Lemma launches_app (l l' : list Call) :
  launches (l ++ l') = (launches l + launches l')%nat.
Proof. unfold launches. rewrite List.filter_app, length_app. reflexivity. Qed.

Section launching.
Context {E : Type} `{!Imports E}.
Variables (cs : ChaincodeSupport E) (cccid : CCContext).

Lemma Launch_present spec w h :
  HandlerRegistry (sys w) !! GetCanonicalName cccid = Some h ->
  Launch cs cccid spec w = Returns None w.
Proof. intros H. unfold Launch. go_unfold. rewrite H. reflexivity. Qed.

Lemma LaunchInit_present spec w h :
  HandlerRegistry (sys w) !! GetCanonicalName cccid = Some h ->
  LaunchInit cs cccid spec w = Returns None w.
Proof. intros H. unfold LaunchInit. go_unfold. rewrite H. reflexivity. Qed.

Lemma LaunchInit_absent spec w ccci :
  HandlerRegistry (sys w) !! GetCanonicalName cccid = None ->
  DeploymentSpecToChaincodeContainerInfo spec = Some ccci ->
  LaunchInit cs cccid spec w =
  let ccci' := Some (set_Version ccci (Version cccid)) in
  let '(r, s) := Launcher.Launch (Launcher cs) ccci' (sys w) in
  Returns r {| sys := s; calls := calls w ++ [Launcher_Launch_call ccci'] |}.
Proof.
  intros H Hc. unfold LaunchInit. go_unfold. rewrite H, Hc. reflexivity.
Qed.

Lemma Launch_unresolved spec w chaincodeName ccci err s :
  HandlerRegistry (sys w) !! GetCanonicalName cccid = None ->
  ChaincodeSpec_Name (cis_GetChaincodeSpec spec) = Some chaincodeName ->
  Lifecycle.ChaincodeContainerInfo (Lifecycle cs) (ChainID cccid) chaincodeName (sys w)
    = ((ccci, Some err), s) ->
  Launch cs cccid spec w =
  Returns
    (Some (Wrap err ("[channel " +:+ ChainID cccid +:+
                     "] failed to get chaincode container info for " +:+ chaincodeName)))
    {| sys := s;
       calls := (calls w ++ [Lifecycle_ChaincodeContainerInfo_call (ChainID cccid) chaincodeName])
                ++ (if UserRunsCC cs then [Logger_Error_call developer_mode_hint] else []) |}.
Proof.
  intros H Hn Hl. unfold Launch. go_unfold. rewrite H, Hn, Hl.
  destruct (UserRunsCC cs); simpl; [reflexivity|].
  rewrite app_nil_r. reflexivity.
Qed.

Lemma Launch_resolved spec w chaincodeName ccci s :
  HandlerRegistry (sys w) !! GetCanonicalName cccid = None ->
  ChaincodeSpec_Name (cis_GetChaincodeSpec spec) = Some chaincodeName ->
  Lifecycle.ChaincodeContainerInfo (Lifecycle cs) (ChainID cccid) chaincodeName (sys w)
    = ((ccci, None), s) ->
  Launch cs cccid spec w =
  let '(r, s') := Launcher.Launch (Launcher cs) ccci s in
  Returns r
    {| sys := s';
       calls := (calls w ++ [Lifecycle_ChaincodeContainerInfo_call (ChainID cccid) chaincodeName])
                ++ [Launcher_Launch_call ccci] |}.
Proof.
  intros H Hn Hl. unfold Launch. go_unfold. rewrite H, Hn, Hl. reflexivity.
Qed.

(** One call of [Launch] or [LaunchInit] calls the launcher at most once. *)
Lemma Launch_launches spec w r w' :
  Launch cs cccid spec w = Returns r w' ->
  (launches (calls w') <= launches (calls w) + 1)%nat.
Proof.
  destruct (HandlerRegistry (sys w) !! GetCanonicalName cccid) as [h|] eqn:Hh.
  - rewrite (Launch_present spec w h Hh). intros [= _ <-]. lia.
  - destruct (ChaincodeSpec_Name (cis_GetChaincodeSpec spec)) as [n|] eqn:Hn.
    + destruct (Lifecycle.ChaincodeContainerInfo (Lifecycle cs) (ChainID cccid) n (sys w))
        as [[ccci [err|]] s] eqn:Hl.
      * rewrite (Launch_unresolved spec w n ccci err s Hh Hn Hl).
        intros [= _ <-]. simpl. rewrite !launches_app.
        destruct (UserRunsCC cs); cbn; lia.
      * rewrite (Launch_resolved spec w n ccci s Hh Hn Hl).
        destruct (Launcher.Launch (Launcher cs) ccci s) as [r0 s'].
        intros [= _ <-]. simpl. rewrite !launches_app. cbn. lia.
    + unfold Launch. go_unfold. rewrite Hh, Hn. discriminate.
Qed.

Lemma LaunchInit_launches spec w r w' :
  LaunchInit cs cccid spec w = Returns r w' ->
  (launches (calls w') <= launches (calls w) + 1)%nat.
Proof.
  destruct (HandlerRegistry (sys w) !! GetCanonicalName cccid) as [h|] eqn:Hh.
  - rewrite (LaunchInit_present spec w h Hh). intros [= _ <-]. lia.
  - destruct (DeploymentSpecToChaincodeContainerInfo spec) as [ccci|] eqn:Hc.
    + rewrite (LaunchInit_absent spec w ccci Hh Hc). cbv zeta.
      destruct (Launcher.Launch (Launcher cs) _ (sys w)) as [r0 s'].
      intros [= _ <-]. simpl. rewrite launches_app. cbn. lia.
    + unfold LaunchInit. go_unfold. rewrite Hh, Hc. discriminate.
Qed.

(** [LaunchInit] records nothing but a call of the launcher. *)
Lemma LaunchInit_calls spec w r w' :
  LaunchInit cs cccid spec w = Returns r w' ->
  exists new : list Call,
    calls w' = calls w ++ new /\
    Forall (fun c => is_Lifecycle_call c = false) new.
Proof.
  destruct (HandlerRegistry (sys w) !! GetCanonicalName cccid) as [h|] eqn:Hh.
  - rewrite (LaunchInit_present spec w h Hh). intros [= _ <-].
    exists []. rewrite app_nil_r. split; [reflexivity | constructor].
  - destruct (DeploymentSpecToChaincodeContainerInfo spec) as [ccci|] eqn:Hc.
    + rewrite (LaunchInit_absent spec w ccci Hh Hc). cbv zeta.
      destruct (Launcher.Launch (Launcher cs) _ (sys w)) as [r0 s'].
      intros [= _ <-]. eexists. split; [reflexivity|].
      repeat constructor.
    + unfold LaunchInit. go_unfold. rewrite Hh, Hc. discriminate.
Qed.

End launching.

(** ** [Invoke] and [InvokeInit] case by case *)

Section invoking.
Context {E : Type} `{!Imports E}.
Variables (cs : ChaincodeSupport E) (ctxt : context_Context) (cccid : CCContext).

Lemma Invoke_nil_spec spec w :
  cis_GetChaincodeSpec spec = None ->
  Invoke cs ctxt cccid spec w =
  Returns (None, Some (New "chaincode spec is nil")) w.
Proof. intros H. unfold Invoke. rewrite H. reflexivity. Qed.

Lemma Invoke_launched spec w w1 chaincodeSpec input payload :
  cis_GetChaincodeSpec spec = Some chaincodeSpec ->
  Launch cs cccid spec w = Returns None w1 ->
  Input chaincodeSpec = Some input ->
  proto_Marshal (Some (set_Decorations input (ProposalDecorations cccid)))
    = (payload, None) ->
  Invoke cs ctxt cccid spec w =
  execute cs ctxt cccid
    (Some {| Type_ := ChaincodeMessage_TRANSACTION; Payload := payload;
             Txid := TxID cccid; msg_ChaincodeEvent := None;
             ChannelId := ChainID cccid |}) w1.
Proof.
  intros Hs Hl Hi Hm. unfold Invoke. rewrite Hs.
  unfold mbind at 1, go_mbind at 1, go_bind at 1. rewrite Hl, Hi.
  unfold createCCMessage. rewrite Hm. reflexivity.
Qed.

Lemma InvokeInit_launched spec w w1 chaincodeSpec input payload :
  LaunchInit cs cccid spec w = Returns None w1 ->
  cds_GetChaincodeSpec spec = Some chaincodeSpec ->
  Input chaincodeSpec = Some input ->
  proto_Marshal (Some (set_Decorations input (ProposalDecorations cccid)))
    = (payload, None) ->
  InvokeInit cs ctxt cccid spec w =
  execute cs ctxt cccid
    (Some {| Type_ := ChaincodeMessage_INIT; Payload := payload;
             Txid := TxID cccid; msg_ChaincodeEvent := None;
             ChannelId := ChainID cccid |}) w1.
Proof.
  intros Hl Hs Hi Hm. unfold InvokeInit.
  unfold mbind at 1, go_mbind at 1, go_bind at 1. rewrite Hl, Hs, Hi.
  unfold createCCMessage. rewrite Hm. reflexivity.
Qed.

(** The message [Invoke] or [InvokeInit] hands back is the message the
    handler returned, as it returned it. *)
Lemma Invoke_passes_through spec w w' resp :
  Invoke cs ctxt cccid spec w = Returns (Some resp, None) w' ->
  exists h msg s,
    Handler_Execute h ctxt cccid msg (ExecuteTimeout cs) s
      = ((Some resp, None), sys w').
Proof.
  unfold Invoke.
  destruct (cis_GetChaincodeSpec spec) as [cspec|]; [|discriminate].
  unfold mbind at 1, go_mbind at 1, go_bind at 1.
  destruct (Launch cs cccid spec w) as [[err|] w1|]; try discriminate.
  destruct (Input cspec) as [input|]; [|discriminate].
  destruct (createCCMessage _ _ _ _) as [ccMsg [err|]]; [discriminate|].
  intros H. apply execute_passes_through in H. destruct H as (h & _ & H).
  exists h, ccMsg, (sys w1). exact H.
Qed.

Lemma InvokeInit_passes_through spec w w' resp :
  InvokeInit cs ctxt cccid spec w = Returns (Some resp, None) w' ->
  exists h msg s,
    Handler_Execute h ctxt cccid msg (ExecuteTimeout cs) s
      = ((Some resp, None), sys w').
Proof.
  unfold InvokeInit.
  unfold mbind at 1, go_mbind at 1, go_bind at 1.
  destruct (LaunchInit cs cccid spec w) as [[err|] w1|]; try discriminate.
  destruct (cds_GetChaincodeSpec spec) as [cspec|]; [|discriminate].
  destruct (Input cspec) as [input|]; [|discriminate].
  destruct (createCCMessage _ _ _ _) as [ccMsg [err|]]; [discriminate|].
  intros H. apply execute_passes_through in H. destruct H as (h & _ & H).
  exists h, ccMsg, (sys w1). exact H.
Qed.

(** Neither [execute] nor [InvokeInit] records a call of the lifecycle. *)
Lemma execute_calls msg w r w' :
  execute cs ctxt cccid msg w = Returns r w' ->
  exists new : list Call,
    calls w' = calls w ++ new /\
    Forall (fun c => is_Lifecycle_call c = false) new.
Proof.
  destruct (HandlerRegistry (sys w) !! GetCanonicalName cccid) as [h|] eqn:Hh.
  - rewrite (execute_present cs ctxt cccid msg w h Hh).
    destruct (Handler_Execute h ctxt cccid msg (ExecuteTimeout cs) (sys w))
      as [[ccresp err] s].
    intros [= _ <-]. simpl. rewrite <- app_assoc.
    eexists. split; [reflexivity | repeat constructor].
  - rewrite (execute_absent cs ctxt cccid msg w Hh).
    intros [= _ <-]. simpl. rewrite <- app_assoc.
    eexists. split; [reflexivity | repeat constructor].
Qed.

Lemma InvokeInit_calls spec w r w' :
  InvokeInit cs ctxt cccid spec w = Returns r w' ->
  exists new : list Call,
    calls w' = calls w ++ new /\
    Forall (fun c => is_Lifecycle_call c = false) new.
Proof.
  unfold InvokeInit.
  unfold mbind at 1, go_mbind at 1, go_bind at 1.
  destruct (LaunchInit cs cccid spec w) as [err w1|] eqn:Hl; [|discriminate].
  apply LaunchInit_calls in Hl. destruct Hl as (new1 & Hc1 & Hf1).
  destruct err as [err|].
  { intros [= _ <-]. exists new1. split; assumption. }
  destruct (cds_GetChaincodeSpec spec) as [cspec|].
  2:{ intros [= _ <-]. exists new1. split; assumption. }
  destruct (Input cspec) as [input|]; [|discriminate].
  destruct (createCCMessage _ _ _ _) as [ccMsg [err|]].
  { intros [= _ <-]. exists new1. split; assumption. }
  intros H. apply execute_calls in H. destruct H as (new2 & Hc2 & Hf2).
  exists (new1 ++ new2). split.
  - rewrite Hc2, Hc1, app_assoc. reflexivity.
  - apply Forall_app. split; assumption.
Qed.

End invoking.

(** ** Interpreting the terminal message *)

Section interpretation.
Context {E : Type} `{!Imports E}.
Variables (cs : ChaincodeSupport E) (ctxt : context_Context) (cccid : CCContext).

(** C1. A COMPLETED message whose payload decodes makes [Execute] and
    [ExecuteInit] return the decoded response with a nil error; an event
    carried by the message comes back with [ChaincodeId] set to the name of
    the unit and [TxId] set to the transaction id of the context, its other
    fields kept. The message that [Invoke] and [InvokeInit] hand to
    [processChaincodeExecutionResult] is the very message the handler
    returned, so the stamp is put on there and nowhere before. *)
Theorem Execute_completed (resp : ChaincodeMessage) (res : Response) :
  Type_ resp = ChaincodeMessage_COMPLETED ->
  proto_Unmarshal (Payload resp) = (res, None) ->
  let event :=
    (fun ev => {| ev_ChaincodeId := Name cccid; ev_TxId := TxID cccid;
                  EventName := EventName ev; ev_Payload := ev_Payload ev |})
      <$> msg_ChaincodeEvent resp in
  processChaincodeExecutionResult cccid (Some resp) None = (Some res, event, None) /\
  (forall spec w w',
     Invoke cs ctxt cccid spec w = Returns (Some resp, None) w' ->
     Execute cs ctxt cccid spec w = Returns (Some res, event, None) w') /\
  (forall spec w w',
     InvokeInit cs ctxt cccid spec w = Returns (Some resp, None) w' ->
     ExecuteInit cs ctxt cccid spec w = Returns (Some res, event, None) w') /\
  (forall spec w w',
     Invoke cs ctxt cccid spec w = Returns (Some resp, None) w' ->
     exists h msg s,
       Handler_Execute h ctxt cccid msg (ExecuteTimeout cs) s
         = ((Some resp, None), sys w')) /\
  (forall spec w w',
     InvokeInit cs ctxt cccid spec w = Returns (Some resp, None) w' ->
     exists h msg s,
       Handler_Execute h ctxt cccid msg (ExecuteTimeout cs) s
         = ((Some resp, None), sys w')).
Proof.
  intros Hty Hdec event.
  assert (Hp : processChaincodeExecutionResult cccid (Some resp) None
               = (Some res, event, None)).
  { unfold processChaincodeExecutionResult.
    rewrite Hty, Z.eqb_refl, Hdec. reflexivity. }
  split; [exact Hp|]. split; [|split; [|split]].
  - intros spec w w' H. rewrite (Execute_of_Invoke _ _ _ _ _ _ _ _ H), Hp. reflexivity.
  - intros spec w w' H.
    rewrite (ExecuteInit_of_InvokeInit _ _ _ _ _ _ _ _ H), Hp. reflexivity.
  - intros spec w w' H. exact (Invoke_passes_through _ _ _ _ _ _ _ H).
  - intros spec w w' H. exact (InvokeInit_passes_through _ _ _ _ _ _ _ H).
Qed.

(** C2. An ERROR message makes [Execute] and [ExecuteInit] return a nil
    response and the error [transaction returned with failure: P], where
    [P] is the raw payload of the message; success is never reported. *)
Theorem Execute_remote_failure (resp : ChaincodeMessage) :
  ChaincodeMessage_ERROR <> ChaincodeMessage_COMPLETED ->
  Type_ resp = ChaincodeMessage_ERROR ->
  let e := New ("transaction returned with failure: " +:+ Payload resp) in
  mentions (Error e) (Payload resp) = true /\
  (exists event,
     processChaincodeExecutionResult cccid (Some resp) None = (None, event, Some e)) /\
  (forall spec w w',
     Invoke cs ctxt cccid spec w = Returns (Some resp, None) w' ->
     exists event,
       Execute cs ctxt cccid spec w = Returns (None, event, Some e) w') /\
  (forall spec w w',
     InvokeInit cs ctxt cccid spec w = Returns (Some resp, None) w' ->
     exists event,
       ExecuteInit cs ctxt cccid spec w = Returns (None, event, Some e) w').
Proof.
  intros Hne Hty e.
  assert (Hp : processChaincodeExecutionResult cccid (Some resp) None
               = (None, stamp (Name cccid) (TxID cccid) <$> msg_ChaincodeEvent resp,
                  Some e)).
  { unfold processChaincodeExecutionResult.
    rewrite Hty, Z.eqb_refl.
    destruct (Z.eqb_spec ChaincodeMessage_ERROR ChaincodeMessage_COMPLETED) as [Heq|_];
      [contradiction | reflexivity]. }
  split; [apply mentions_suffix|].
  split; [eexists; exact Hp|]. split.
  - intros spec w w' H. eexists.
    rewrite (Execute_of_Invoke _ _ _ _ _ _ _ _ H), Hp. reflexivity.
  - intros spec w w' H. eexists.
    rewrite (ExecuteInit_of_InvokeInit _ _ _ _ _ _ _ _ H), Hp. reflexivity.
Qed.

(** C3. A final message that is neither COMPLETED nor ERROR, no message
    at all with a nil error, and a COMPLETED message whose payload does not
    decode each make [Execute] and [ExecuteInit] return a nil response, a
    nil event and a non-nil error. Whatever the handler answered, the result
    is either a response with a nil error or a nil response with an error. *)
Theorem Execute_protocol_violation :
  (forall resp,
     Type_ resp <> ChaincodeMessage_COMPLETED ->
     Type_ resp <> ChaincodeMessage_ERROR ->
     processChaincodeExecutionResult cccid (Some resp) None =
     (None, None,
      Some (New ("unexpected response type " +:+ pretty (Type_ resp) +:+
                 " for transaction " +:+ TxID cccid)))) /\
  processChaincodeExecutionResult cccid None None =
    (None, None, Some (New ("nil response from transaction " +:+ TxID cccid))) /\
  (forall resp res err,
     Type_ resp = ChaincodeMessage_COMPLETED ->
     proto_Unmarshal (Payload resp) = (res, Some err) ->
     processChaincodeExecutionResult cccid (Some resp) None =
     (None, None,
      Some (Wrap err ("failed to unmarshal response for transaction " +:+ TxID cccid)))) /\
  (forall spec w w' resp,
     Invoke cs ctxt cccid spec w = Returns (resp, None) w' ->
     protocol_violation resp ->
     exists e, Execute cs ctxt cccid spec w = Returns (None, None, Some e) w') /\
  (forall spec w w' resp,
     InvokeInit cs ctxt cccid spec w = Returns (resp, None) w' ->
     protocol_violation resp ->
     exists e, ExecuteInit cs ctxt cccid spec w = Returns (None, None, Some e) w') /\
  (forall resp err,
     (exists res event,
        processChaincodeExecutionResult cccid resp err = (Some res, event, None)) \/
     (exists event e,
        processChaincodeExecutionResult cccid resp err = (None, event, Some e))).
Proof.
  assert (Hother : forall resp,
     Type_ resp <> ChaincodeMessage_COMPLETED ->
     Type_ resp <> ChaincodeMessage_ERROR ->
     processChaincodeExecutionResult cccid (Some resp) None =
     (None, None,
      Some (New ("unexpected response type " +:+ pretty (Type_ resp) +:+
                 " for transaction " +:+ TxID cccid)))).
  { intros resp Hc He. unfold processChaincodeExecutionResult.
    destruct (Z.eqb_spec (Type_ resp) ChaincodeMessage_COMPLETED); [contradiction|].
    destruct (Z.eqb_spec (Type_ resp) ChaincodeMessage_ERROR); [contradiction|].
    reflexivity. }
  assert (Hdec : forall resp res err,
     Type_ resp = ChaincodeMessage_COMPLETED ->
     proto_Unmarshal (Payload resp) = (res, Some err) ->
     processChaincodeExecutionResult cccid (Some resp) None =
     (None, None,
      Some (Wrap err ("failed to unmarshal response for transaction " +:+ TxID cccid)))).
  { intros resp res err Hty Hu. unfold processChaincodeExecutionResult.
    rewrite Hty, Z.eqb_refl, Hu. reflexivity. }
  assert (Hviol : forall resp, protocol_violation resp ->
     exists e, processChaincodeExecutionResult cccid resp None = (None, None, Some e)).
  { intros [m|] Hv; [|eexists; reflexivity].
    destruct Hv as [[Hc He]|[Hc (res & err & Hu)]].
    - eexists. apply Hother; assumption.
    - eexists. eapply Hdec; eassumption. }
  split; [exact Hother|]. split; [reflexivity|]. split; [exact Hdec|].
  split; [|split].
  - intros spec w w' resp H Hv. destruct (Hviol resp Hv) as [e He].
    exists e. rewrite (Execute_of_Invoke _ _ _ _ _ _ _ _ H), He. reflexivity.
  - intros spec w w' resp H Hv. destruct (Hviol resp Hv) as [e He].
    exists e. rewrite (ExecuteInit_of_InvokeInit _ _ _ _ _ _ _ _ H), He. reflexivity.
  - intros resp err. unfold processChaincodeExecutionResult.
    destruct err as [err|]; [right; eauto|].
    destruct resp as [resp|]; [|right; eauto].
    destruct (Type_ resp =? ChaincodeMessage_COMPLETED).
    + destruct (proto_Unmarshal (Payload resp)) as [res [err|]];
        [right; eauto | left; eauto].
    + destruct (Type_ resp =? ChaincodeMessage_ERROR); right; eauto.
Qed.

(** C9. An ERROR message that carries an event makes [Execute] and
    [ExecuteInit] return that event, stamped with the name of the unit and
    the transaction id, together with the error: the stamp is put on before
    the type of the message is looked at, and the failure branch returns
    the event. *)
Theorem Execute_remote_failure_keeps_event (resp : ChaincodeMessage)
    (ev : ChaincodeEvent) :
  ChaincodeMessage_ERROR <> ChaincodeMessage_COMPLETED ->
  Type_ resp = ChaincodeMessage_ERROR ->
  msg_ChaincodeEvent resp = Some ev ->
  let event :=
    {| ev_ChaincodeId := Name cccid; ev_TxId := TxID cccid;
       EventName := EventName ev; ev_Payload := ev_Payload ev |} in
  let e := New ("transaction returned with failure: " +:+ Payload resp) in
  processChaincodeExecutionResult cccid (Some resp) None = (None, Some event, Some e) /\
  (forall spec w w',
     Invoke cs ctxt cccid spec w = Returns (Some resp, None) w' ->
     Execute cs ctxt cccid spec w = Returns (None, Some event, Some e) w') /\
  (forall spec w w',
     InvokeInit cs ctxt cccid spec w = Returns (Some resp, None) w' ->
     ExecuteInit cs ctxt cccid spec w = Returns (None, Some event, Some e) w').
Proof.
  intros Hne Hty Hev event e.
  assert (Hp : processChaincodeExecutionResult cccid (Some resp) None
               = (None, Some event, Some e)).
  { unfold processChaincodeExecutionResult.
    rewrite Hty, Z.eqb_refl, Hev.
    destruct (Z.eqb_spec ChaincodeMessage_ERROR ChaincodeMessage_COMPLETED) as [Heq|_];
      [contradiction | reflexivity]. }
  split; [exact Hp|]. split.
  - intros spec w w' H. rewrite (Execute_of_Invoke _ _ _ _ _ _ _ _ H), Hp. reflexivity.
  - intros spec w w' H.
    rewrite (ExecuteInit_of_InvokeInit _ _ _ _ _ _ _ _ H), Hp. reflexivity.
Qed.

End interpretation.

(** ** Dispatch and ensure-running *)

Section orchestration.
Context {E : Type} `{!Imports E}.
Variables (cs : ChaincodeSupport E) (ctxt : context_Context) (cccid : CCContext).

(** C4. When no handler is registered under the canonical name of the
    context, [execute] returns a nil message and the error [unable to invoke
    chaincode N], [N] the canonical name. It leaves the registry and the
    collaborators as they were and records two log lines only: no handler is
    called and nothing is tried again. *)
Theorem execute_unreachable (msg : option ChaincodeMessage) (w : World E) :
  HandlerRegistry (sys w) !! GetCanonicalName cccid = None ->
  let cname := GetCanonicalName cccid in
  let e := New ("unable to invoke chaincode " +:+ cname) in
  execute cs ctxt cccid msg w =
    Returns (None, Some e)
      {| sys := sys w;
         calls := calls w ++ [Logger_Debugf_call ("canonical name: " +:+ cname);
                              Logger_Debugf_call ("chaincode is not running: " +:+ cname)] |}
  /\ mentions (Error e) cname = true.
Proof.
  intros H cname e. split.
  - rewrite (execute_absent cs ctxt cccid msg w H).
    rewrite <- app_assoc. reflexivity.
  - apply mentions_suffix.
Qed.

(** C5. When a handler is registered under the canonical name of the
    context, [Launch] and [LaunchInit] return nil and leave the world as it
    was: no lifecycle call, no launcher call, nothing started. So when the
    unit is running after a first call, that call followed by a second one
    has called the launcher at most once. *)
Theorem Launch_idempotent (spec : option ChaincodeInvocationSpec)
    (dspec : option ChaincodeDeploymentSpec) (w : World E) (h : HandlerRef) :
  HandlerRegistry (sys w) !! GetCanonicalName cccid = Some h ->
  Launch cs cccid spec w = Returns None w /\
  LaunchInit cs cccid dspec w = Returns None w /\
  (forall w0 r,
     Launch cs cccid spec w0 = Returns r w ->
     (Launch cs cccid spec ≫= fun _ => Launch cs cccid spec) w0 = Returns None w /\
     (launches (calls w) <= launches (calls w0) + 1)%nat) /\
  (forall w0 r,
     LaunchInit cs cccid dspec w0 = Returns r w ->
     (LaunchInit cs cccid dspec ≫= fun _ => LaunchInit cs cccid dspec) w0
       = Returns None w /\
     (launches (calls w) <= launches (calls w0) + 1)%nat).
Proof.
  intros H.
  pose proof (Launch_present cs cccid spec w h H) as HL.
  pose proof (LaunchInit_present cs cccid dspec w h H) as HI.
  split; [exact HL|]. split; [exact HI|]. split.
  - intros w0 r H0. split.
    + unfold mbind, go_mbind, go_bind. rewrite H0. exact HL.
    + exact (Launch_launches cs cccid spec w0 r w H0).
  - intros w0 r H0. split.
    + unfold mbind, go_mbind, go_bind. rewrite H0. exact HI.
    + exact (LaunchInit_launches cs cccid dspec w0 r w H0).
Qed.

(** C6. [LaunchInit] does not call the lifecycle: when the unit is not
    registered it takes the container info from the deployment spec, sets
    its version to the version of the context and hands it to the launcher,
    and that call is the only one it records. [InvokeInit], once the launch
    has succeeded, executes an INIT message whose payload is the marshalled
    constructor input with the proposal decorations of the context, and it
    records no lifecycle call either. *)
Theorem LaunchInit_bypasses_Lifecycle (spec : option ChaincodeDeploymentSpec)
    (w : World E) :
  (forall ccci,
     HandlerRegistry (sys w) !! GetCanonicalName cccid = None ->
     DeploymentSpecToChaincodeContainerInfo spec = Some ccci ->
     let ccci' :=
       Some {| ccci_Name := ccci_Name ccci; ccci_Version := Version cccid;
               ccci_Path := ccci_Path ccci; ccci_Type := ccci_Type ccci;
               ccci_CodePackage := ccci_CodePackage ccci;
               ContainerType := ContainerType ccci |} in
     LaunchInit cs cccid spec w =
     let '(r, s) := Launcher.Launch (Launcher cs) ccci' (sys w) in
     Returns r {| sys := s; calls := calls w ++ [Launcher_Launch_call ccci'] |}) /\
  (forall r w',
     LaunchInit cs cccid spec w = Returns r w' ->
     exists new : list Call,
       calls w' = calls w ++ new /\
       Forall (fun c => is_Lifecycle_call c = false) new) /\
  (forall w1 chaincodeSpec input payload,
     LaunchInit cs cccid spec w = Returns None w1 ->
     cds_GetChaincodeSpec spec = Some chaincodeSpec ->
     Input chaincodeSpec = Some input ->
     proto_Marshal
       (Some {| Args := Args input; Decorations := ProposalDecorations cccid |})
       = (payload, None) ->
     InvokeInit cs ctxt cccid spec w =
     execute cs ctxt cccid
       (Some {| Type_ := ChaincodeMessage_INIT; Payload := payload;
                Txid := TxID cccid; msg_ChaincodeEvent := None;
                ChannelId := ChainID cccid |}) w1) /\
  (forall r w',
     InvokeInit cs ctxt cccid spec w = Returns r w' ->
     exists new : list Call,
       calls w' = calls w ++ new /\
       Forall (fun c => is_Lifecycle_call c = false) new).
Proof.
  split; [|split; [|split]].
  - intros ccci Hh Hc. exact (LaunchInit_absent cs cccid spec w ccci Hh Hc).
  - intros r w'. apply LaunchInit_calls.
  - intros w1 chaincodeSpec input payload Hl Hs Hi Hm.
    exact (InvokeInit_launched cs ctxt cccid spec w w1 chaincodeSpec input payload
             Hl Hs Hi Hm).
  - intros r w'. apply InvokeInit_calls.
Qed.

(** C7. On the steady-state path, from any world: when the unit is not
    registered, [Launch] asks the lifecycle for the container info with the
    channel id of the context and the name of the chaincode. If the
    lifecycle fails, [Launch] returns its error wrapped with the channel id
    and the name and does not call the launcher; otherwise it calls the
    launcher with what the lifecycle returned. When the unit is registered
    the lifecycle is not asked. Whether the unit was running or had to be
    launched, once [Launch] has returned nil, [Invoke] executes a
    TRANSACTION message with the marshalled input as payload and the
    transaction id and channel id of the context, and that message is what
    the registered handler is called with. *)
Theorem Launch_resolves_through_Lifecycle (spec : option ChaincodeInvocationSpec)
    (w : World E) :
  (forall chaincodeName ccci err s,
     HandlerRegistry (sys w) !! GetCanonicalName cccid = None ->
     ChaincodeSpec_Name (cis_GetChaincodeSpec spec) = Some chaincodeName ->
     Lifecycle.ChaincodeContainerInfo (Lifecycle cs) (ChainID cccid) chaincodeName (sys w)
       = ((ccci, Some err), s) ->
     Launch cs cccid spec w =
     Returns
       (Some (Wrap err ("[channel " +:+ ChainID cccid +:+
                        "] failed to get chaincode container info for " +:+
                        chaincodeName)))
       {| sys := s;
          calls := calls w ++
                   Lifecycle_ChaincodeContainerInfo_call (ChainID cccid) chaincodeName ::
                   (if UserRunsCC cs then [Logger_Error_call developer_mode_hint]
                    else []) |}) /\
  (forall chaincodeName ccci s,
     HandlerRegistry (sys w) !! GetCanonicalName cccid = None ->
     ChaincodeSpec_Name (cis_GetChaincodeSpec spec) = Some chaincodeName ->
     Lifecycle.ChaincodeContainerInfo (Lifecycle cs) (ChainID cccid) chaincodeName (sys w)
       = ((ccci, None), s) ->
     Launch cs cccid spec w =
     let '(r, s') := Launcher.Launch (Launcher cs) ccci s in
     Returns r
       {| sys := s';
          calls := calls w ++
                   [Lifecycle_ChaincodeContainerInfo_call (ChainID cccid) chaincodeName;
                    Launcher_Launch_call ccci] |}) /\
  (forall h,
     HandlerRegistry (sys w) !! GetCanonicalName cccid = Some h ->
     Launch cs cccid spec w = Returns None w) /\
  (forall w1 chaincodeSpec input payload,
     cis_GetChaincodeSpec spec = Some chaincodeSpec ->
     Launch cs cccid spec w = Returns None w1 ->
     Input chaincodeSpec = Some input ->
     proto_Marshal
       (Some {| Args := Args input; Decorations := ProposalDecorations cccid |})
       = (payload, None) ->
     let msg :=
       Some {| Type_ := ChaincodeMessage_TRANSACTION; Payload := payload;
               Txid := TxID cccid; msg_ChaincodeEvent := None;
               ChannelId := ChainID cccid |} in
     Invoke cs ctxt cccid spec w = execute cs ctxt cccid msg w1 /\
     (forall h,
        HandlerRegistry (sys w1) !! GetCanonicalName cccid = Some h ->
        Invoke cs ctxt cccid spec w =
        let '((ccresp, err), s) :=
          Handler_Execute h ctxt cccid msg (ExecuteTimeout cs) (sys w1) in
        Returns
          match err with
          | Some err => (None, Some (WithMessage err "error sending"))
          | None => (ccresp, None)
          end
          {| sys := s;
             calls := calls w1 ++
                      [Logger_Debugf_call ("canonical name: " +:+ GetCanonicalName cccid);
                       Handler_Execute_call h ctxt cccid msg (ExecuteTimeout cs)] |})) /\
  (forall h chaincodeSpec input payload,
     HandlerRegistry (sys w) !! GetCanonicalName cccid = Some h ->
     cis_GetChaincodeSpec spec = Some chaincodeSpec ->
     Input chaincodeSpec = Some input ->
     proto_Marshal
       (Some {| Args := Args input; Decorations := ProposalDecorations cccid |})
       = (payload, None) ->
     let msg :=
       Some {| Type_ := ChaincodeMessage_TRANSACTION; Payload := payload;
               Txid := TxID cccid; msg_ChaincodeEvent := None;
               ChannelId := ChainID cccid |} in
     Invoke cs ctxt cccid spec w =
     let '((ccresp, err), s) :=
       Handler_Execute h ctxt cccid msg (ExecuteTimeout cs) (sys w) in
     Returns
       match err with
       | Some err => (None, Some (WithMessage err "error sending"))
       | None => (ccresp, None)
       end
       {| sys := s;
          calls := calls w ++
                   [Logger_Debugf_call ("canonical name: " +:+ GetCanonicalName cccid);
                    Handler_Execute_call h ctxt cccid msg (ExecuteTimeout cs)] |}).
Proof.
  assert (Hsent : forall w1 chaincodeSpec input payload,
     cis_GetChaincodeSpec spec = Some chaincodeSpec ->
     Launch cs cccid spec w = Returns None w1 ->
     Input chaincodeSpec = Some input ->
     proto_Marshal
       (Some {| Args := Args input; Decorations := ProposalDecorations cccid |})
       = (payload, None) ->
     let msg :=
       Some {| Type_ := ChaincodeMessage_TRANSACTION; Payload := payload;
               Txid := TxID cccid; msg_ChaincodeEvent := None;
               ChannelId := ChainID cccid |} in
     Invoke cs ctxt cccid spec w = execute cs ctxt cccid msg w1 /\
     (forall h,
        HandlerRegistry (sys w1) !! GetCanonicalName cccid = Some h ->
        Invoke cs ctxt cccid spec w =
        let '((ccresp, err), s) :=
          Handler_Execute h ctxt cccid msg (ExecuteTimeout cs) (sys w1) in
        Returns
          match err with
          | Some err => (None, Some (WithMessage err "error sending"))
          | None => (ccresp, None)
          end
          {| sys := s;
             calls := calls w1 ++
                      [Logger_Debugf_call ("canonical name: " +:+ GetCanonicalName cccid);
                       Handler_Execute_call h ctxt cccid msg (ExecuteTimeout cs)] |})).
  { intros w1 chaincodeSpec input payload Hs Hl Hi Hm msg.
    pose proof (Invoke_launched cs ctxt cccid spec w w1 chaincodeSpec input payload
                  Hs Hl Hi Hm) as HI.
    split; [exact HI|].
    intros h H1. rewrite HI. fold msg.
    rewrite (execute_present cs ctxt cccid msg w1 h H1).
    destruct (Handler_Execute h ctxt cccid msg (ExecuteTimeout cs) (sys w1))
      as [[ccresp err] s].
    rewrite <- app_assoc. reflexivity. }
  split; [|split; [|split; [|split]]].
  - intros chaincodeName ccci err s Hh Hn Hl.
    rewrite (Launch_unresolved cs cccid spec w chaincodeName ccci err s Hh Hn Hl).
    rewrite <- app_assoc. reflexivity.
  - intros chaincodeName ccci s Hh Hn Hl.
    rewrite (Launch_resolved cs cccid spec w chaincodeName ccci s Hh Hn Hl).
    destruct (Launcher.Launch (Launcher cs) ccci s) as [r s'].
    rewrite <- app_assoc. reflexivity.
  - intros h Hh. exact (Launch_present cs cccid spec w h Hh).
  - exact Hsent.
  - intros h chaincodeSpec input payload Hh Hs Hi Hm msg.
    exact (proj2 (Hsent w chaincodeSpec input payload Hs
                    (Launch_present cs cccid spec w h Hh) Hi Hm) h Hh).
Qed.

(** C10. [Invoke] checks for a nil chaincode spec before launching: it
    returns [chaincode spec is nil] and leaves the world untouched.
    [InvokeInit] launches first: with a nil chaincode spec in the deployment
    spec and the unit not registered, the launcher is called, and the error
    returned is the launcher's if it failed and [chaincode spec is nil]
    otherwise. *)
Theorem nil_spec_check_order :
  (forall spec w,
     cis_GetChaincodeSpec spec = None ->
     Invoke cs ctxt cccid spec w =
     Returns (None, Some (New "chaincode spec is nil")) w) /\
  (forall spec w ccci,
     cds_GetChaincodeSpec spec = None ->
     HandlerRegistry (sys w) !! GetCanonicalName cccid = None ->
     DeploymentSpecToChaincodeContainerInfo spec = Some ccci ->
     let ccci' := Some (set_Version ccci (Version cccid)) in
     InvokeInit cs ctxt cccid spec w =
     let '(r, s) := Launcher.Launch (Launcher cs) ccci' (sys w) in
     Returns
       (None, Some match r with
                   | Some err => err
                   | None => New "chaincode spec is nil"
                   end)
       {| sys := s; calls := calls w ++ [Launcher_Launch_call ccci'] |}).
Proof.
  split.
  - intros spec w H. exact (Invoke_nil_spec cs ctxt cccid spec w H).
  - intros spec w ccci Hs Hh Hc ccci'. unfold InvokeInit.
    unfold mbind at 1, go_mbind at 1, go_bind at 1.
    rewrite (LaunchInit_absent cs cccid spec w ccci Hh Hc). cbv zeta. fold ccci'.
    destruct (Launcher.Launch (Launcher cs) ccci' (sys w)) as [[err|] s];
      [reflexivity|].
    rewrite Hs. reflexivity.
Qed.

End orchestration.

(** ** What the errors say about the invocation *)

Section error_context.
Context {E : Type} `{!Imports E}.
Variables (cs : ChaincodeSupport E) (ctxt : context_Context) (cccid : CCContext).

Lemma processChaincodeExecutionResult_error resp err r ev e :
  processChaincodeExecutionResult cccid resp err = (r, ev, Some e) ->
  mentions (Error e) (TxID cccid) = true \/
  (exists m,
     resp = Some m /\ err = None /\ Type_ m = ChaincodeMessage_ERROR /\
     Error e = "transaction returned with failure: " +:+ Payload m).
Proof.
  unfold processChaincodeExecutionResult.
  destruct err as [err|].
  { intros [= _ _ <-]. left. apply Error_Wrap_mentions_message, mentions_suffix. }
  destruct resp as [m|].
  2:{ intros [= _ _ <-]. left. apply mentions_suffix. }
  destruct (Type_ m =? ChaincodeMessage_COMPLETED).
  { destruct (proto_Unmarshal (Payload m)) as [res [err|]]; [|discriminate].
    intros [= _ _ <-]. left. apply Error_Wrap_mentions_message, mentions_suffix. }
  destruct (Z.eqb_spec (Type_ m) ChaincodeMessage_ERROR) as [Hty|_].
  - intros [= _ _ <-]. right. exists m. repeat split. exact Hty.
  - intros [= _ _ <-]. left. cbn [Error].
    apply mentions_append_r, mentions_append_r, mentions_suffix.
Qed.

(** C8, as the code has it. An error returned by [Execute] or
    [ExecuteInit] mentions the transaction id, unless it reports an ERROR
    response: that one is the fixed text followed by the raw payload. An
    error of [Invoke] or [InvokeInit] comes back wrapped as
    [failed to execute transaction T], so it keeps what its cause mentions:
    the dispatch error mentions the canonical name, and a failure of the
    handler comes back as [error sending] followed by the handler's own
    text. *)
Theorem Execute_error_context :
  (forall spec w w' r ev e,
     Execute cs ctxt cccid spec w = Returns (r, ev, Some e) w' ->
     mentions (Error e) (TxID cccid) = true \/
     (exists m,
        Invoke cs ctxt cccid spec w = Returns (Some m, None) w' /\
        Type_ m = ChaincodeMessage_ERROR /\
        Error e = "transaction returned with failure: " +:+ Payload m)) /\
  (forall spec w w' r ev e,
     ExecuteInit cs ctxt cccid spec w = Returns (r, ev, Some e) w' ->
     mentions (Error e) (TxID cccid) = true \/
     (exists m,
        InvokeInit cs ctxt cccid spec w = Returns (Some m, None) w' /\
        Type_ m = ChaincodeMessage_ERROR /\
        Error e = "transaction returned with failure: " +:+ Payload m)) /\
  (forall resp err,
     let e := Wrap err ("failed to execute transaction " +:+ TxID cccid) in
     processChaincodeExecutionResult cccid resp (Some err) = (None, None, Some e) /\
     Error e = "failed to execute transaction " +:+ TxID cccid +:+ ": " +:+ Error err /\
     (forall t, mentions (Error err) t = true -> mentions (Error e) t = true)) /\
  (forall msg w,
     HandlerRegistry (sys w) !! GetCanonicalName cccid = None ->
     exists e w',
       execute cs ctxt cccid msg w = Returns (None, Some e) w' /\
       mentions (Error e) (GetCanonicalName cccid) = true) /\
  (forall msg w h ccresp err s,
     HandlerRegistry (sys w) !! GetCanonicalName cccid = Some h ->
     Handler_Execute h ctxt cccid msg (ExecuteTimeout cs) (sys w)
       = ((ccresp, Some err), s) ->
     exists w',
       execute cs ctxt cccid msg w =
         Returns (None, Some (WithMessage err "error sending")) w' /\
       Error (WithMessage err "error sending") = "error sending: " +:+ Error err).
Proof.
  split; [|split; [|split; [|split]]].
  - intros spec w w' r ev e H.
    apply Execute_inv in H. destruct H as (resp & err & HI & Hp).
    symmetry in Hp. apply processChaincodeExecutionResult_error in Hp.
    destruct Hp as [Hp|(m & -> & -> & Hty & He)]; [left; exact Hp|].
    right. exists m. repeat split; assumption.
  - intros spec w w' r ev e H.
    apply ExecuteInit_inv in H. destruct H as (resp & err & HI & Hp).
    symmetry in Hp. apply processChaincodeExecutionResult_error in Hp.
    destruct Hp as [Hp|(m & -> & -> & Hty & He)]; [left; exact Hp|].
    right. exists m. repeat split; assumption.
  - intros resp err e. split; [reflexivity|]. split.
    + cbn [Error]. apply append_assoc.
    + intros t. apply Error_Wrap_mentions_cause.
  - intros msg w H. eexists. eexists. split.
    + exact (execute_absent cs ctxt cccid msg w H).
    + apply mentions_suffix.
  - intros msg w h ccresp err s H He. eexists. split; [|reflexivity].
    rewrite (execute_present cs ctxt cccid msg w h H), He. reflexivity.
Qed.

End error_context.

(** ** The statements on the test doubles *)

Module on_doubles.
Import doubles.

(** The scenario of the design document: the unit [token-contract] at
    version [v1] is not running; [Execute] on channel [ch1] with transaction
    [t1] has the lifecycle resolve it, the launcher start it, the handler
    receive a TRANSACTION message, and the caller receive the response with
    no error and the event stamped with [t1]. *)
Example scenario_token_contract :
  Execute cs ctxt cccid invocation idle =
  Returns
    (Some {| Status := 200; Message := "OK"; resp_Payload := "ok" |},
     Some {| ev_ChaincodeId := "token-contract"; ev_TxId := "t1";
             EventName := "transferred"; ev_Payload := "42" |},
     None)
    {| sys := {| HandlerRegistry := {[ "token-contract:v1" := 1%N ]};
                 ext := ["token-contract"] |};
       calls :=
         [Lifecycle_ChaincodeContainerInfo_call "ch1" "token-contract";
          Launcher_Launch_call
            (Some {| ccci_Name := "token-contract"; ccci_Version := "v1";
                     ccci_Path := ""; ccci_Type := "GOLANG";
                     ccci_CodePackage := ""; ContainerType := "DOCKER" |});
          Logger_Debugf_call "canonical name: token-contract:v1";
          Handler_Execute_call 1%N ctxt cccid
            (Some {| Type_ := 5; Payload := "transfer,alice,bob"; Txid := "t1";
                     msg_ChaincodeEvent := None; ChannelId := "ch1" |})
            30000000000] |}.
Proof. vm_compute. reflexivity. Qed.

(** A mid-protocol message as the final answer, and a handler that
    returns neither a message nor an error. *)
Example scenario_mid_protocol_message :
  processChaincodeExecutionResult cccid (Some (reply cccid 4 "")) None =
  (None, None, Some (New "unexpected response type 4 for transaction t1")).
Proof. vm_compute. reflexivity. Qed.

Example scenario_no_message :
  fst (processChaincodeExecutionResult cccid None None) = (None, None) /\
  Error <$> snd (processChaincodeExecutionResult cccid None None)
    = Some "nil response from transaction t1".
Proof. vm_compute. split; reflexivity. Qed.

(** A unit that cannot be started is started again by the next call: a
    failed launch leaves nothing behind in the registry. *)
Example scenario_failed_launch_is_retried :
  let broken :=
    {| ChainID := "ch1"; Name := "broken"; Version := "v1"; TxID := "t2";
       ProposalDecorations := ∅ |} in
  let spec :=
    Some {| cds_ChaincodeSpec :=
              Some {| spec_Type := 1;
                      ChaincodeId := Some {| cid_Path := ""; cid_Name := "broken";
                                             cid_Version := "v1" |};
                      Input := None; Timeout := 0 |};
            CodePackage := ""; ExecEnv := 0 |} in
  let w' := world_after idle
              ((LaunchInit cs broken spec ≫= fun _ => LaunchInit cs broken spec) idle) in
  HandlerRegistry (sys w') !! "broken:v1" = None /\ launches (calls w') = 2%nat.
Proof. vm_compute. split; reflexivity. Qed.

Lemma Execute_completed_witness :
  Execute cs ctxt cccid invocation (served_by 1%N) =
  Returns
    (Some {| Status := 200; Message := "OK"; resp_Payload := "ok" |},
     Some {| ev_ChaincodeId := "token-contract"; ev_TxId := "t1";
             EventName := "transferred"; ev_Payload := "42" |},
     None)
    (world_after idle (Invoke cs ctxt cccid invocation (served_by 1%N))).
Proof.
  refine (proj1 (proj2 (Execute_completed cs ctxt cccid (reply cccid 6 "ok")
                          {| Status := 200; Message := "OK"; resp_Payload := "ok" |}
                          _ _)) invocation (served_by 1%N) _ _).
  - reflexivity.
  - reflexivity.
  - vm_compute. reflexivity.
Defined.

Lemma Execute_remote_failure_witness :
  exists event,
    Execute cs ctxt cccid invocation (served_by 2%N) =
    Returns
      (None, event, Some (New "transaction returned with failure: insufficient funds"))
      (world_after idle (Invoke cs ctxt cccid invocation (served_by 2%N))).
Proof.
  refine (proj1 (proj2 (proj2
            (Execute_remote_failure cs ctxt cccid (reply cccid 7 "insufficient funds")
               _ _))) invocation (served_by 2%N) _ _).
  - simpl. lia.
  - reflexivity.
  - vm_compute. reflexivity.
Defined.

Lemma Execute_protocol_violation_witness :
  exists e,
    Execute cs ctxt cccid invocation (served_by 3%N) =
    Returns (None, None, Some e)
      (world_after idle (Invoke cs ctxt cccid invocation (served_by 3%N))).
Proof.
  refine (proj1 (proj2 (proj2 (proj2 (Execute_protocol_violation cs ctxt cccid))))
            invocation (served_by 3%N) _ (Some (reply cccid 4 "")) _ _).
  - vm_compute. reflexivity.
  - left. simpl. lia.
Defined.

Lemma execute_unreachable_witness :
  execute cs ctxt cccid None idle =
  Returns (None, Some (New "unable to invoke chaincode token-contract:v1"))
    {| sys := sys idle;
       calls := [Logger_Debugf_call "canonical name: token-contract:v1";
                 Logger_Debugf_call "chaincode is not running: token-contract:v1"] |}.
Proof.
  refine (proj1 (execute_unreachable cs ctxt cccid None idle _)).
  vm_compute. reflexivity.
Defined.

Lemma Launch_idempotent_witness :
  (Launch cs cccid invocation ≫= fun _ => Launch cs cccid invocation) idle =
    Returns None (world_after idle (Launch cs cccid invocation idle)) /\
  (launches (calls (world_after idle (Launch cs cccid invocation idle)))
   <= launches (calls idle) + 1)%nat.
Proof.
  refine (proj1 (proj2 (proj2
            (Launch_idempotent cs cccid invocation deployment
               (world_after idle (Launch cs cccid invocation idle)) 1%N _)))
            idle None _).
  - vm_compute. reflexivity.
  - vm_compute. reflexivity.
Defined.

Lemma LaunchInit_bypasses_Lifecycle_witness :
  InvokeInit cs ctxt cccid deployment idle =
  execute cs ctxt cccid
    (Some {| Type_ := 3; Payload := "transfer,alice,bob"; Txid := "t1";
             msg_ChaincodeEvent := None; ChannelId := "ch1" |})
    (world_after idle (LaunchInit cs cccid deployment idle)).
Proof.
  refine (proj1 (proj2 (proj2
            (LaunchInit_bypasses_Lifecycle cs ctxt cccid deployment idle)))
            _ chaincodeSpec
            {| Args := ["transfer"; "alice"; "bob"]; Decorations := ∅ |}
            "transfer,alice,bob" _ _ _ _).
  - vm_compute. reflexivity.
  - reflexivity.
  - reflexivity.
  - reflexivity.
Defined.

Lemma Launch_resolves_through_Lifecycle_witness :
  Launch cs cccid invocation idle =
    Returns None
      {| sys := {| HandlerRegistry := {[ "token-contract:v1" := 1%N ]};
                   ext := ["token-contract"] |};
         calls :=
           [Lifecycle_ChaincodeContainerInfo_call "ch1" "token-contract";
            Launcher_Launch_call
              (Some {| ccci_Name := "token-contract"; ccci_Version := "v1";
                       ccci_Path := ""; ccci_Type := "GOLANG";
                       ccci_CodePackage := ""; ContainerType := "DOCKER" |})] |} /\
  Invoke cs ctxt cccid invocation (served_by 1%N) =
    Returns (Some (reply cccid 6 "ok"), None)
      {| sys := sys (served_by 1%N);
         calls :=
           [Logger_Debugf_call "canonical name: token-contract:v1";
            Handler_Execute_call 1%N ctxt cccid
              (Some {| Type_ := 5; Payload := "transfer,alice,bob"; Txid := "t1";
                       msg_ChaincodeEvent := None; ChannelId := "ch1" |})
              30000000000] |}.
Proof.
  split.
  - assert (Hh : HandlerRegistry (sys idle) !! GetCanonicalName cccid = None)
      by (vm_compute; reflexivity).
    rewrite (proj1 (proj2
               (Launch_resolves_through_Lifecycle cs ctxt cccid invocation idle))
               "token-contract"
               (Some {| ccci_Name := "token-contract"; ccci_Version := "v1";
                        ccci_Path := ""; ccci_Type := "GOLANG";
                        ccci_CodePackage := ""; ContainerType := "DOCKER" |})
               (sys idle) Hh eq_refl eq_refl).
    vm_compute. reflexivity.
  - assert (Hh : HandlerRegistry (sys (served_by 1%N)) !! GetCanonicalName cccid
                 = Some 1%N) by (vm_compute; reflexivity).
    rewrite (proj2 (proj2 (proj2 (proj2
               (Launch_resolves_through_Lifecycle cs ctxt cccid invocation
                  (served_by 1%N)))))
               1%N chaincodeSpec
               {| Args := ["transfer"; "alice"; "bob"]; Decorations := ∅ |}
               "transfer,alice,bob" Hh eq_refl eq_refl eq_refl).
    vm_compute. reflexivity.
Defined.

Lemma Execute_error_context_witness :
  mentions
    "failed to execute transaction t1: error sending: timeout expired while executing transaction"
    "t1" = true \/
  (exists m,
     Invoke cs ctxt cccid invocation (served_by 9%N) =
       Returns (Some m, None)
         (world_after idle (Invoke cs ctxt cccid invocation (served_by 9%N))) /\
     Type_ m = 7 /\
     "failed to execute transaction t1: error sending: timeout expired while executing transaction"
       = "transaction returned with failure: " +:+ Payload m).
Proof.
  refine (proj1 (Execute_error_context cs ctxt cccid) invocation (served_by 9%N)
            (world_after idle (Invoke cs ctxt cccid invocation (served_by 9%N)))
            None None
            (Wrap (WithMessage (New "timeout expired while executing transaction")
                     "error sending")
                  "failed to execute transaction t1") _).
  vm_compute. reflexivity.
Defined.

Lemma Execute_remote_failure_keeps_event_witness :
  Execute cs ctxt cccid invocation (served_by 2%N) =
  Returns
    (None,
     Some {| ev_ChaincodeId := "token-contract"; ev_TxId := "t1";
             EventName := "transferred"; ev_Payload := "42" |},
     Some (New "transaction returned with failure: insufficient funds"))
    (world_after idle (Invoke cs ctxt cccid invocation (served_by 2%N))).
Proof.
  refine (proj1 (proj2
            (Execute_remote_failure_keeps_event cs ctxt cccid
               (reply cccid 7 "insufficient funds") an_event _ _ _))
            invocation (served_by 2%N) _ _).
  - simpl. lia.
  - reflexivity.
  - reflexivity.
  - vm_compute. reflexivity.
Defined.

Lemma nil_spec_check_order_witness :
  Invoke cs ctxt cccid (Some {| cis_ChaincodeSpec := None |}) idle =
    Returns (None, Some (New "chaincode spec is nil")) idle /\
  InvokeInit cs ctxt cccid
    (Some {| cds_ChaincodeSpec := None; CodePackage := ""; ExecEnv := 0 |}) idle =
    Returns (None, Some (New "chaincode spec is nil"))
      {| sys := {| HandlerRegistry := {[ ":v1" := 1%N ]}; ext := [""] |};
         calls :=
           [Launcher_Launch_call
              (Some {| ccci_Name := ""; ccci_Version := "v1"; ccci_Path := "";
                       ccci_Type := "GOLANG"; ccci_CodePackage := "";
                       ContainerType := "DOCKER" |})] |}.
Proof.
  split.
  - refine (proj1 (nil_spec_check_order cs ctxt cccid) _ idle _). reflexivity.
  - rewrite (proj2 (nil_spec_check_order cs ctxt cccid)
               (Some {| cds_ChaincodeSpec := None; CodePackage := ""; ExecEnv := 0 |})
               idle
               {| ccci_Name := ""; ccci_Version := ""; ccci_Path := "";
                  ccci_Type := "GOLANG"; ccci_CodePackage := "";
                  ContainerType := "DOCKER" |}
               ltac:(reflexivity) ltac:(vm_compute; reflexivity) ltac:(reflexivity)).
    vm_compute. reflexivity.
Defined.

(** C8 as the design document words it does not hold: the error for an
    ERROR response mentions neither the canonical name, nor the transaction
    id, nor the channel id. *)
Lemma Execute_error_context_counterexample :
  ~ (forall (E : Type) (I : Imports E) (cs : ChaincodeSupport E)
       (ctxt : context_Context) (cccid : CCContext)
       (spec : option ChaincodeInvocationSpec) (w w' : World E)
       (r : option Response) (ev : option ChaincodeEvent) (e : error),
       Execute cs ctxt cccid spec w = Returns (r, ev, Some e) w' ->
       mentions (Error e) (GetCanonicalName cccid) = true /\
       mentions (Error e) (TxID cccid) = true /\
       mentions (Error e) (ChainID cccid) = true).
Proof.
  intros H.
  assert (Hx : Execute cs ctxt cccid invocation (served_by 2%N) =
               Returns
                 (None, Some (stamp "token-contract" "t1" an_event),
                  Some (New "transaction returned with failure: insufficient funds"))
                 (world_after idle (Invoke cs ctxt cccid invocation (served_by 2%N))))
    by (vm_compute; reflexivity).
  destruct (H E imports cs ctxt cccid invocation _ _ _ _ _ Hx) as [Hc _].
  vm_compute in Hc. discriminate.
Qed.

End on_doubles.

(** ** Further properties of the interpretation of the terminal message *)

Section events.
Context {E : Type} `{!Imports E}.
Variables (cs : ChaincodeSupport E) (ctxt : context_Context) (cccid : CCContext).

Lemma processChaincodeExecutionResult_event resp err r ev e :
  processChaincodeExecutionResult cccid resp err = (r, Some ev, e) ->
  ev_ChaincodeId ev = Name cccid /\ ev_TxId ev = TxID cccid /\
  exists m ev0,
    err = None /\ resp = Some m /\ msg_ChaincodeEvent m = Some ev0 /\
    EventName ev = EventName ev0 /\ ev_Payload ev = ev_Payload ev0.
Proof.
  unfold processChaincodeExecutionResult.
  destruct err as [err|]; [discriminate|].
  destruct resp as [m|]; [|discriminate].
  assert (Hst : stamp (Name cccid) (TxID cccid) <$> msg_ChaincodeEvent m = Some ev ->
                ev_ChaincodeId ev = Name cccid /\ ev_TxId ev = TxID cccid /\
                exists m0 ev0,
                  @None error = None /\ Some m = Some m0 /\
                  msg_ChaincodeEvent m0 = Some ev0 /\
                  EventName ev = EventName ev0 /\ ev_Payload ev = ev_Payload ev0).
  { destruct (msg_ChaincodeEvent m) as [ev0|] eqn:Hev; [|discriminate].
    intros [= <-]. repeat split. exists m, ev0. repeat split. exact Hev. }
  destruct (Type_ m =? ChaincodeMessage_COMPLETED).
  - destruct (proto_Unmarshal (Payload m)) as [res [err|]]; [discriminate|].
    intros [= _ Hev _]. exact (Hst Hev).
  - destruct (Type_ m =? ChaincodeMessage_ERROR); [|discriminate].
    intros [= _ Hev _]. exact (Hst Hev).
Qed.

(** X1. Whatever path is taken, an event that [Execute] or [ExecuteInit]
    returns has [ChaincodeId] equal to the name in the invocation context
    and [TxId] equal to its transaction id. *)
Theorem Execute_event_stamped :
  (forall spec w w' r ev e,
     Execute cs ctxt cccid spec w = Returns (r, Some ev, e) w' ->
     ev_ChaincodeId ev = Name cccid /\ ev_TxId ev = TxID cccid) /\
  (forall spec w w' r ev e,
     ExecuteInit cs ctxt cccid spec w = Returns (r, Some ev, e) w' ->
     ev_ChaincodeId ev = Name cccid /\ ev_TxId ev = TxID cccid).
Proof.
  split; intros spec w w' r ev e H.
  - apply Execute_inv in H. destruct H as (resp & err & _ & Hp).
    symmetry in Hp. apply processChaincodeExecutionResult_event in Hp.
    destruct Hp as (H1 & H2 & _). split; assumption.
  - apply ExecuteInit_inv in H. destruct H as (resp & err & _ & Hp).
    symmetry in Hp. apply processChaincodeExecutionResult_event in Hp.
    destruct Hp as (H1 & H2 & _). split; assumption.
Qed.

(** X2. [processChaincodeExecutionResult] returns an event exactly when no
    error came in, the message carries an event, and the message is either
    COMPLETED with a payload that decodes or (not COMPLETED and) ERROR. In
    every other case an event the unit emitted is dropped. *)
Theorem processChaincodeExecutionResult_event_iff
    (resp : option ChaincodeMessage) (err : option error) :
  is_Some (snd (fst (processChaincodeExecutionResult cccid resp err))) <->
  exists m,
    err = None /\ resp = Some m /\ is_Some (msg_ChaincodeEvent m) /\
    ((Type_ m = ChaincodeMessage_COMPLETED /\
      snd (proto_Unmarshal (Payload m)) = None) \/
     (Type_ m <> ChaincodeMessage_COMPLETED /\
      Type_ m = ChaincodeMessage_ERROR)).
Proof.
  unfold processChaincodeExecutionResult. split.
  - destruct err as [err|]; [intros [x Hx]; discriminate|].
    destruct resp as [m|]; [|intros [x Hx]; discriminate].
    destruct (Z.eqb_spec (Type_ m) ChaincodeMessage_COMPLETED) as [Hc|Hc].
    + destruct (proto_Unmarshal (Payload m)) as [res [e|]] eqn:Hu;
        [intros [x Hx]; discriminate|].
      simpl. intros Hev. exists m. repeat split.
      * destruct (msg_ChaincodeEvent m); [eauto | destruct Hev; discriminate].
      * left. split; [exact Hc | rewrite Hu; reflexivity].
    + destruct (Z.eqb_spec (Type_ m) ChaincodeMessage_ERROR) as [He|He];
        [|intros [x Hx]; discriminate].
      simpl. intros Hev. exists m. repeat split.
      * destruct (msg_ChaincodeEvent m); [eauto | destruct Hev; discriminate].
      * right. split; assumption.
  - intros (m & -> & -> & [ev0 Hev] & Hty). rewrite Hev.
    destruct Hty as [[Hc Hu]|[Hc He]].
    + rewrite Hc, Z.eqb_refl.
      destruct (proto_Unmarshal (Payload m)) as [res [e|]]; [discriminate|].
      simpl. eauto.
    + destruct (Z.eqb_spec (Type_ m) ChaincodeMessage_COMPLETED); [contradiction|].
      rewrite He, Z.eqb_refl. simpl. eauto.
Qed.

(** X3. The identity a unit writes into its event does not matter: two
    messages that differ only in the [ChaincodeId] and [TxId] of their
    event are interpreted alike. *)
Theorem processChaincodeExecutionResult_ignores_unit_identity
    (m : ChaincodeMessage) (ev : ChaincodeEvent) (id txid : string)
    (err : option error) :
  msg_ChaincodeEvent m = Some ev ->
  processChaincodeExecutionResult cccid
    (Some {| Type_ := Type_ m; Payload := Payload m; Txid := Txid m;
             msg_ChaincodeEvent :=
               Some {| ev_ChaincodeId := id; ev_TxId := txid;
                       EventName := EventName ev; ev_Payload := ev_Payload ev |};
             ChannelId := ChannelId m |}) err
  = processChaincodeExecutionResult cccid (Some m) err.
Proof.
  intros Hev. unfold processChaincodeExecutionResult. simpl. rewrite Hev.
  reflexivity.
Qed.

(** X4. [execute], [Invoke] and [InvokeInit] never return a message
    together with an error: when the error is not nil the message is nil. *)
Theorem Invoke_message_or_error :
  (forall msg w w' resp err,
     execute cs ctxt cccid msg w = Returns (resp, Some err) w' -> resp = None) /\
  (forall spec w w' resp err,
     Invoke cs ctxt cccid spec w = Returns (resp, Some err) w' -> resp = None) /\
  (forall spec w w' resp err,
     InvokeInit cs ctxt cccid spec w = Returns (resp, Some err) w' -> resp = None).
Proof.
  assert (Hx : forall msg w w' resp err,
     execute cs ctxt cccid msg w = Returns (resp, Some err) w' -> resp = None).
  { intros msg w w' resp err.
    destruct (HandlerRegistry (sys w) !! GetCanonicalName cccid) as [h|] eqn:Hh.
    - rewrite (execute_present cs ctxt cccid msg w h Hh).
      destruct (Handler_Execute h ctxt cccid msg (ExecuteTimeout cs) (sys w))
        as [[ccresp [e|]] s]; [|discriminate].
      intros [= <- _ _]. reflexivity.
    - rewrite (execute_absent cs ctxt cccid msg w Hh).
      intros [= <- _ _]. reflexivity. }
  split; [exact Hx|]. split.
  - intros spec w w' resp err. unfold Invoke.
    destruct (cis_GetChaincodeSpec spec) as [cspec|];
      [|intros [= <- _ _]; reflexivity].
    unfold mbind at 1, go_mbind at 1, go_bind at 1.
    destruct (Launch cs cccid spec w) as [[e|] w1|]; [| |discriminate].
    { intros [= <- _ _]. reflexivity. }
    destruct (Input cspec) as [input|]; [|discriminate].
    destruct (createCCMessage _ _ _ _) as [ccMsg [e|]].
    { intros [= <- _ _]. reflexivity. }
    apply Hx.
  - intros spec w w' resp err. unfold InvokeInit.
    unfold mbind at 1, go_mbind at 1, go_bind at 1.
    destruct (LaunchInit cs cccid spec w) as [[e|] w1|]; [| |discriminate].
    { intros [= <- _ _]. reflexivity. }
    destruct (cds_GetChaincodeSpec spec) as [cspec|];
      [|intros [= <- _ _]; reflexivity].
    destruct (Input cspec) as [input|]; [|discriminate].
    destruct (createCCMessage _ _ _ _) as [ccMsg [e|]].
    { intros [= <- _ _]. reflexivity. }
    apply Hx.
Qed.

End events.

(** ** The collaborators are consulted at most once, in a fixed order *)

Lemma lifecycle_calls_app (l l' : list Call) :
  lifecycle_calls (l ++ l') = (lifecycle_calls l + lifecycle_calls l')%nat.
Proof. unfold lifecycle_calls. rewrite List.filter_app, length_app. reflexivity. Qed.

Lemma handler_calls_app (l l' : list Call) :
  handler_calls (l ++ l') = (handler_calls l + handler_calls l')%nat.
Proof. unfold handler_calls. rewrite List.filter_app, length_app. reflexivity. Qed.

Lemma sent_as_no_handler_call {E : Type} (cs : ChaincodeSupport E)
    (ctxt : context_Context) (cccid : CCContext) (ty : Z) (l : list Call) :
  handler_calls l = 0%nat -> Forall (sent_as cs ctxt cccid ty) l.
Proof.
  induction l as [|c l IH]; intros H; [constructor|].
  unfold handler_calls in H. simpl in H.
  destruct c; simpl in H; try discriminate;
    (constructor; [exact I | apply IH; exact H]).
Qed.

Section once.
Context {E : Type} `{!Imports E}.
Variables (cs : ChaincodeSupport E) (ctxt : context_Context) (cccid : CCContext).

Lemma Launch_new_calls spec w r w' :
  Launch cs cccid spec w = Returns r w' ->
  exists new : list Call,
    calls w' = calls w ++ new /\
    (lifecycle_calls new <= 1)%nat /\
    (launches new <= lifecycle_calls new)%nat /\
    handler_calls new = 0%nat.
Proof.
  destruct (HandlerRegistry (sys w) !! GetCanonicalName cccid) as [h|] eqn:Hh.
  - rewrite (Launch_present cs cccid spec w h Hh). intros [= _ <-].
    exists []. rewrite app_nil_r. cbn. repeat split; lia.
  - destruct (ChaincodeSpec_Name (cis_GetChaincodeSpec spec)) as [n|] eqn:Hn.
    + destruct (Lifecycle.ChaincodeContainerInfo (Lifecycle cs) (ChainID cccid) n (sys w))
        as [[ccci [err|]] s] eqn:Hl.
      * rewrite (Launch_unresolved cs cccid spec w n ccci err s Hh Hn Hl).
        intros [= _ <-]. simpl. rewrite <- app_assoc.
        eexists. split; [reflexivity|].
        destruct (UserRunsCC cs); cbn; repeat split; lia.
      * rewrite (Launch_resolved cs cccid spec w n ccci s Hh Hn Hl).
        destruct (Launcher.Launch (Launcher cs) ccci s) as [r0 s'].
        intros [= _ <-]. simpl. rewrite <- app_assoc.
        eexists. split; [reflexivity|]. cbn. repeat split; lia.
    + unfold Launch. go_unfold. rewrite Hh, Hn. discriminate.
Qed.

Lemma LaunchInit_new_calls spec w r w' :
  LaunchInit cs cccid spec w = Returns r w' ->
  exists new : list Call,
    calls w' = calls w ++ new /\
    lifecycle_calls new = 0%nat /\
    (launches new <= 1)%nat /\
    handler_calls new = 0%nat.
Proof.
  destruct (HandlerRegistry (sys w) !! GetCanonicalName cccid) as [h|] eqn:Hh.
  - rewrite (LaunchInit_present cs cccid spec w h Hh). intros [= _ <-].
    exists []. rewrite app_nil_r. cbn. repeat split; lia.
  - destruct (DeploymentSpecToChaincodeContainerInfo spec) as [ccci|] eqn:Hc.
    + rewrite (LaunchInit_absent cs cccid spec w ccci Hh Hc). cbv zeta.
      destruct (Launcher.Launch (Launcher cs) _ (sys w)) as [r0 s'].
      intros [= _ <-]. eexists. split; [reflexivity|]. cbn. repeat split; lia.
    + unfold LaunchInit. go_unfold. rewrite Hh, Hc. discriminate.
Qed.

Lemma execute_new_calls msg w r w' :
  execute cs ctxt cccid msg w = Returns r w' ->
  exists new : list Call,
    calls w' = calls w ++ new /\
    lifecycle_calls new = 0%nat /\
    launches new = 0%nat /\
    (handler_calls new = 0%nat \/
     exists h pre,
       new = pre ++ [Handler_Execute_call h ctxt cccid msg (ExecuteTimeout cs)] /\
       handler_calls pre = 0%nat).
Proof.
  destruct (HandlerRegistry (sys w) !! GetCanonicalName cccid) as [h|] eqn:Hh.
  - rewrite (execute_present cs ctxt cccid msg w h Hh).
    destruct (Handler_Execute h ctxt cccid msg (ExecuteTimeout cs) (sys w))
      as [[ccresp err] s].
    intros [= _ <-]. simpl. rewrite <- app_assoc.
    eexists. split; [reflexivity|]. cbn. repeat split.
    right. exists h, [Logger_Debugf_call ("canonical name: " +:+ GetCanonicalName cccid)].
    split; reflexivity.
  - rewrite (execute_absent cs ctxt cccid msg w Hh).
    intros [= _ <-]. simpl. rewrite <- app_assoc.
    eexists. split; [reflexivity|]. cbn. repeat split. left. reflexivity.
Qed.

End once.

Section once_per_invocation.
Context {E : Type} `{!Imports E}.
Variables (cs : ChaincodeSupport E) (ctxt : context_Context) (cccid : CCContext).

Lemma createCCMessage_message ty cid txid input ccMsg :
  createCCMessage ty cid txid input = (ccMsg, None) ->
  exists payload,
    ccMsg = Some {| Type_ := ty; Payload := payload; Txid := txid;
                    msg_ChaincodeEvent := None; ChannelId := cid |}.
Proof.
  unfold createCCMessage.
  destruct (proto_Marshal input) as [payload [err|]]; [discriminate|].
  intros [= <-]. exists payload. reflexivity.
Qed.

(** What [execute] adds to the calls of a launch that called no handler. *)
Lemma launch_then_execute_calls ty (ln : list Call) ccMsg w1 r w' :
  handler_calls ln = 0%nat ->
  (exists payload,
     ccMsg = Some {| Type_ := ty; Payload := payload; Txid := TxID cccid;
                     msg_ChaincodeEvent := None; ChannelId := ChainID cccid |}) ->
  execute cs ctxt cccid ccMsg w1 = Returns r w' ->
  exists en : list Call,
    calls w' = calls w1 ++ en /\
    lifecycle_calls (ln ++ en) = lifecycle_calls ln /\
    launches (ln ++ en) = launches ln /\
    (handler_calls (ln ++ en) <= 1)%nat /\
    Forall (sent_as cs ctxt cccid ty) (ln ++ en) /\
    (handler_calls (ln ++ en) = 0%nat \/
     exists pre c,
       ln ++ en = pre ++ [c] /\ is_Handler_Execute_call c = true /\
       handler_calls pre = 0%nat).
Proof.
  intros Hln Hmsg Hx. apply execute_new_calls in Hx.
  destruct Hx as (en & Hc & Hlc & Hla & Hh). exists en.
  rewrite lifecycle_calls_app, launches_app, handler_calls_app, Hlc, Hla, Hln.
  split; [exact Hc|]. split; [lia|]. split; [lia|].
  destruct Hh as [H0|(h & pre & -> & Hpre)].
  - rewrite H0. split; [lia|]. split.
    + apply Forall_app. split; apply sent_as_no_handler_call; assumption.
    + left. reflexivity.
  - rewrite handler_calls_app, Hpre. cbn. split; [lia|]. split.
    + apply Forall_app. split; [apply sent_as_no_handler_call; assumption|].
      apply Forall_app. split; [apply sent_as_no_handler_call; assumption|].
      constructor; [|constructor]. simpl. repeat split. exact Hmsg.
    + right. exists (ln ++ pre), (Handler_Execute_call h ctxt cccid ccMsg (ExecuteTimeout cs)).
      rewrite app_assoc, handler_calls_app, Hln, Hpre. repeat split.
Qed.

(** X5. One [Invoke] asks the lifecycle at most once, calls the launcher
    at most once and only when it has asked the lifecycle, and calls a
    handler at most once, as the last thing it does. The handler is called
    with the caller's context, the invocation context, the execute timeout
    and a TRANSACTION message that carries the transaction id and the
    channel id of the invocation context and no event. *)
Theorem Invoke_consults_each_collaborator_once
    (spec : option ChaincodeInvocationSpec) (w w' : World E)
    (r : option ChaincodeMessage * option error) :
  Invoke cs ctxt cccid spec w = Returns r w' ->
  exists new : list Call,
    calls w' = calls w ++ new /\
    (lifecycle_calls new <= 1)%nat /\
    (launches new <= lifecycle_calls new)%nat /\
    (handler_calls new <= 1)%nat /\
    Forall (sent_as cs ctxt cccid ChaincodeMessage_TRANSACTION) new /\
    (handler_calls new = 0%nat \/
     exists pre c,
       new = pre ++ [c] /\ is_Handler_Execute_call c = true /\
       handler_calls pre = 0%nat).
Proof.
  unfold Invoke.
  destruct (cis_GetChaincodeSpec spec) as [cspec|].
  2:{ intros [= _ <-]. exists []. rewrite app_nil_r. cbn.
      split; [reflexivity|]. split; [lia|]. split; [lia|]. split; [lia|].
      split; [constructor | left; reflexivity]. }
  unfold mbind at 1, go_mbind at 1, go_bind at 1.
  destruct (Launch cs cccid spec w) as [err w1|] eqn:HL; [|discriminate].
  apply Launch_new_calls in HL. destruct HL as (ln & Hc1 & Hlc & Hla & Hh).
  assert (Hstop : exists new : list Call,
            calls w1 = calls w ++ new /\
            (lifecycle_calls new <= 1)%nat /\
            (launches new <= lifecycle_calls new)%nat /\
            (handler_calls new <= 1)%nat /\
            Forall (sent_as cs ctxt cccid ChaincodeMessage_TRANSACTION) new /\
            (handler_calls new = 0%nat \/
             exists pre c,
               new = pre ++ [c] /\ is_Handler_Execute_call c = true /\
               handler_calls pre = 0%nat)).
  { exists ln. split; [exact Hc1|]. split; [assumption|]. split; [assumption|].
    split; [lia|]. split; [apply sent_as_no_handler_call, Hh | left; exact Hh]. }
  destruct err as [err|]; [intros [= _ <-]; exact Hstop|].
  destruct (Input cspec) as [input|]; [|discriminate].
  destruct (createCCMessage _ _ _ _) as [ccMsg [err|]] eqn:Hm;
    [intros [= _ <-]; exact Hstop|].
  apply createCCMessage_message in Hm. intros Hx.
  destruct (launch_then_execute_calls ChaincodeMessage_TRANSACTION ln ccMsg w1 r w'
              Hh Hm Hx) as (en & Hc2 & H1 & H2 & H3 & H4 & H5).
  exists (ln ++ en). rewrite H1, H2.
  split; [rewrite Hc2, Hc1, app_assoc; reflexivity|].
  repeat split; assumption.
Qed.

(** X6. One [InvokeInit] never asks the lifecycle, calls the launcher at
    most once, and calls a handler at most once, as the last thing it does
    and with an INIT message that carries the transaction id and the
    channel id of the invocation context and no event. *)
Theorem InvokeInit_consults_each_collaborator_once
    (spec : option ChaincodeDeploymentSpec) (w w' : World E)
    (r : option ChaincodeMessage * option error) :
  InvokeInit cs ctxt cccid spec w = Returns r w' ->
  exists new : list Call,
    calls w' = calls w ++ new /\
    lifecycle_calls new = 0%nat /\
    (launches new <= 1)%nat /\
    (handler_calls new <= 1)%nat /\
    Forall (sent_as cs ctxt cccid ChaincodeMessage_INIT) new /\
    (handler_calls new = 0%nat \/
     exists pre c,
       new = pre ++ [c] /\ is_Handler_Execute_call c = true /\
       handler_calls pre = 0%nat).
Proof.
  unfold InvokeInit.
  unfold mbind at 1, go_mbind at 1, go_bind at 1.
  destruct (LaunchInit cs cccid spec w) as [err w1|] eqn:HL; [|discriminate].
  apply LaunchInit_new_calls in HL. destruct HL as (ln & Hc1 & Hlc & Hla & Hh).
  assert (Hstop : exists new : list Call,
            calls w1 = calls w ++ new /\
            lifecycle_calls new = 0%nat /\
            (launches new <= 1)%nat /\
            (handler_calls new <= 1)%nat /\
            Forall (sent_as cs ctxt cccid ChaincodeMessage_INIT) new /\
            (handler_calls new = 0%nat \/
             exists pre c,
               new = pre ++ [c] /\ is_Handler_Execute_call c = true /\
               handler_calls pre = 0%nat)).
  { exists ln. split; [exact Hc1|]. split; [assumption|]. split; [assumption|].
    split; [lia|]. split; [apply sent_as_no_handler_call, Hh | left; exact Hh]. }
  destruct err as [err|]; [intros [= _ <-]; exact Hstop|].
  destruct (cds_GetChaincodeSpec spec) as [cspec|];
    [|intros [= _ <-]; exact Hstop].
  destruct (Input cspec) as [input|]; [|discriminate].
  destruct (createCCMessage _ _ _ _) as [ccMsg [err|]] eqn:Hm;
    [intros [= _ <-]; exact Hstop|].
  apply createCCMessage_message in Hm. intros Hx.
  destruct (launch_then_execute_calls ChaincodeMessage_INIT ln ccMsg w1 r w'
              Hh Hm Hx) as (en & Hc2 & H1 & H2 & H3 & H4 & H5).
  exists (ln ++ en). rewrite H1, H2.
  split; [rewrite Hc2, Hc1, app_assoc; reflexivity|].
  repeat split; assumption.
Qed.

End once_per_invocation.

(** ** The paths through [Execute] and [ExecuteInit], end to end *)

Section paths.
Context {E : Type} `{!Imports E}.
Variables (cs : ChaincodeSupport E) (ctxt : context_Context) (cccid : CCContext).

(** X7. On a unit that is running, [Execute] is one call of its handler:
    neither the lifecycle nor the launcher is consulted, the handler
    receives the TRANSACTION message, and what comes back is the handler's
    answer interpreted, or its error as [failed to execute transaction T:
    error sending: ...]. A message the handler returns next to an error is
    dropped. *)
Theorem Execute_on_running_unit (spec : option ChaincodeInvocationSpec)
    (w : World E) (h : HandlerRef) (chaincodeSpec : ChaincodeSpec)
    (input : ChaincodeInput) (payload : string) :
  HandlerRegistry (sys w) !! GetCanonicalName cccid = Some h ->
  cis_GetChaincodeSpec spec = Some chaincodeSpec ->
  Input chaincodeSpec = Some input ->
  proto_Marshal
    (Some {| Args := Args input; Decorations := ProposalDecorations cccid |})
    = (payload, None) ->
  let msg :=
    Some {| Type_ := ChaincodeMessage_TRANSACTION; Payload := payload;
            Txid := TxID cccid; msg_ChaincodeEvent := None;
            ChannelId := ChainID cccid |} in
  Execute cs ctxt cccid spec w =
  let '((ccresp, err), s) :=
    Handler_Execute h ctxt cccid msg (ExecuteTimeout cs) (sys w) in
  Returns
    match err with
    | Some err =>
        (None, None,
         Some (Wrap (WithMessage err "error sending")
                    ("failed to execute transaction " +:+ TxID cccid)))
    | None => processChaincodeExecutionResult cccid ccresp None
    end
    {| sys := s;
       calls := calls w ++
                [Logger_Debugf_call ("canonical name: " +:+ GetCanonicalName cccid);
                 Handler_Execute_call h ctxt cccid msg (ExecuteTimeout cs)] |}.
Proof.
  intros Hh Hs Hi Hm msg.
  rewrite Execute_eq.
  rewrite (Invoke_launched cs ctxt cccid spec w w chaincodeSpec input payload Hs
             (Launch_present cs cccid spec w h Hh) Hi Hm).
  fold msg. rewrite (execute_present cs ctxt cccid msg w h Hh).
  destruct (Handler_Execute h ctxt cccid msg (ExecuteTimeout cs) (sys w))
    as [[ccresp [err|]] s]; rewrite <- app_assoc; reflexivity.
Qed.

(** X8. When the unit is not running and the lifecycle does not know the
    chaincode, [Execute] returns the lifecycle's error wrapped twice, so
    that its text names the transaction, the channel and the chaincode;
    neither the launcher nor a handler is called. *)
Theorem Execute_lifecycle_failure (spec : option ChaincodeInvocationSpec)
    (w : World E) (chaincodeSpec : ChaincodeSpec) (chaincodeName : string)
    (ccci : option ChaincodeContainerInfo) (err : error) (s : Sys E) :
  HandlerRegistry (sys w) !! GetCanonicalName cccid = None ->
  cis_GetChaincodeSpec spec = Some chaincodeSpec ->
  ChaincodeSpec_Name (Some chaincodeSpec) = Some chaincodeName ->
  Lifecycle.ChaincodeContainerInfo (Lifecycle cs) (ChainID cccid) chaincodeName (sys w)
    = ((ccci, Some err), s) ->
  exists e w',
    Execute cs ctxt cccid spec w = Returns (None, None, Some e) w' /\
    sys w' = s /\
    collaborator_calls (calls w') =
      collaborator_calls (calls w) ++
      [Lifecycle_ChaincodeContainerInfo_call (ChainID cccid) chaincodeName] /\
    Error e =
      "failed to execute transaction " +:+ TxID cccid +:+ ": [channel " +:+
      ChainID cccid +:+ "] failed to get chaincode container info for " +:+
      chaincodeName +:+ ": " +:+ Error err.
Proof.
  intros Hh Hs Hn Hl.
  assert (HL := Launch_unresolved cs cccid spec w chaincodeName ccci err s Hh
                  ltac:(rewrite Hs; exact Hn) Hl).
  eexists. eexists. split; [|split; [|split]].
  - rewrite Execute_eq. unfold Invoke. rewrite Hs.
    unfold mbind at 1, go_mbind at 1, go_bind at 1. rewrite HL. reflexivity.
  - reflexivity.
  - cbn [calls]. unfold collaborator_calls. rewrite !List.filter_app.
    destruct (UserRunsCC cs); cbn; rewrite ?app_nil_r; reflexivity.
  - cbn [Error]. rewrite !append_assoc. reflexivity.
Qed.

(** X9. An error of the launch is handed back by [Invoke] and
    [InvokeInit] as it is, and nothing is sent: the world is the one the
    launch left. [InvokeInit] does so whatever the deployment spec holds,
    a nil chaincode spec or a nil input included. *)
Theorem launch_failure_is_final :
  (forall spec w w1 err chaincodeSpec,
     cis_GetChaincodeSpec spec = Some chaincodeSpec ->
     Launch cs cccid spec w = Returns (Some err) w1 ->
     Invoke cs ctxt cccid spec w = Returns (None, Some err) w1 /\
     Execute cs ctxt cccid spec w =
       Returns (None, None,
                Some (Wrap err ("failed to execute transaction " +:+ TxID cccid))) w1) /\
  (forall spec w w1 err,
     LaunchInit cs cccid spec w = Returns (Some err) w1 ->
     InvokeInit cs ctxt cccid spec w = Returns (None, Some err) w1 /\
     ExecuteInit cs ctxt cccid spec w =
       Returns (None, None,
                Some (Wrap err ("failed to execute transaction " +:+ TxID cccid))) w1).
Proof.
  split.
  - intros spec w w1 err cspec Hs HL.
    assert (HI : Invoke cs ctxt cccid spec w = Returns (None, Some err) w1).
    { unfold Invoke. rewrite Hs.
      unfold mbind at 1, go_mbind at 1, go_bind at 1. rewrite HL. reflexivity. }
    split; [exact HI|]. rewrite Execute_eq, HI. reflexivity.
  - intros spec w w1 err HL.
    assert (HI : InvokeInit cs ctxt cccid spec w = Returns (None, Some err) w1).
    { unfold InvokeInit.
      unfold mbind at 1, go_mbind at 1, go_bind at 1. rewrite HL. reflexivity. }
    split; [exact HI|]. rewrite ExecuteInit_eq, HI. reflexivity.
Qed.

(** X10. When the launch reports success but no handler is registered
    under the canonical name afterwards, [Execute] and [ExecuteInit] return
    [failed to execute transaction T: unable to invoke chaincode N] and call
    no collaborator after the launch. *)
Theorem Execute_dispatch_after_launch (w1 : World E) :
  HandlerRegistry (sys w1) !! GetCanonicalName cccid = None ->
  let e :=
    Wrap (New ("unable to invoke chaincode " +:+ GetCanonicalName cccid))
         ("failed to execute transaction " +:+ TxID cccid) in
  Error e = "failed to execute transaction " +:+ TxID cccid +:+
            ": unable to invoke chaincode " +:+ GetCanonicalName cccid /\
  (forall spec w chaincodeSpec input payload,
     cis_GetChaincodeSpec spec = Some chaincodeSpec ->
     Launch cs cccid spec w = Returns None w1 ->
     Input chaincodeSpec = Some input ->
     proto_Marshal
       (Some {| Args := Args input; Decorations := ProposalDecorations cccid |})
       = (payload, None) ->
     exists w',
       Execute cs ctxt cccid spec w = Returns (None, None, Some e) w' /\
       sys w' = sys w1 /\
       collaborator_calls (calls w') = collaborator_calls (calls w1)) /\
  (forall spec w chaincodeSpec input payload,
     LaunchInit cs cccid spec w = Returns None w1 ->
     cds_GetChaincodeSpec spec = Some chaincodeSpec ->
     Input chaincodeSpec = Some input ->
     proto_Marshal
       (Some {| Args := Args input; Decorations := ProposalDecorations cccid |})
       = (payload, None) ->
     exists w',
       ExecuteInit cs ctxt cccid spec w = Returns (None, None, Some e) w' /\
       sys w' = sys w1 /\
       collaborator_calls (calls w') = collaborator_calls (calls w1)).
Proof.
  intros Hh e. split; [|split].
  - unfold e. cbn [Error]. rewrite !append_assoc. reflexivity.
  - intros spec w cspec input payload Hs HL Hi Hm. eexists. split; [|split].
    + rewrite Execute_eq.
      rewrite (Invoke_launched cs ctxt cccid spec w w1 cspec input payload Hs HL Hi Hm).
      rewrite (execute_absent cs ctxt cccid _ w1 Hh). reflexivity.
    + reflexivity.
    + cbn [calls]. unfold collaborator_calls. rewrite !List.filter_app. cbn.
      rewrite !app_nil_r. reflexivity.
  - intros spec w cspec input payload HL Hs Hi Hm. eexists. split; [|split].
    + rewrite ExecuteInit_eq.
      rewrite (InvokeInit_launched cs ctxt cccid spec w w1 cspec input payload HL Hs Hi Hm).
      rewrite (execute_absent cs ctxt cccid _ w1 Hh). reflexivity.
    + reflexivity.
    + cbn [calls]. unfold collaborator_calls. rewrite !List.filter_app. cbn.
      rewrite !app_nil_r. reflexivity.
Qed.

End paths.

(** ** Edge cases of building the request *)

Section requests.
Context {E : Type} `{!Imports E}.
Variables (cs : ChaincodeSupport E) (ctxt : context_Context) (cccid : CCContext).

(** X11. The request is built after the launch: when the input cannot be
    marshalled, [Invoke] and [InvokeInit] return the marshaller's error
    under [failed to create chaincode message], no handler is called, and
    what the launch did stays done. *)
Theorem marshal_failure_after_launch (w1 : World E) (input : ChaincodeInput)
    (payload : string) (err : error) :
  proto_Marshal
    (Some {| Args := Args input; Decorations := ProposalDecorations cccid |})
    = (payload, Some err) ->
  let e := WithMessage err "failed to create chaincode message" in
  Error e = "failed to create chaincode message: " +:+ Error err /\
  (forall spec w chaincodeSpec,
     cis_GetChaincodeSpec spec = Some chaincodeSpec ->
     Input chaincodeSpec = Some input ->
     Launch cs cccid spec w = Returns None w1 ->
     Invoke cs ctxt cccid spec w = Returns (None, Some e) w1) /\
  (forall spec w chaincodeSpec,
     cds_GetChaincodeSpec spec = Some chaincodeSpec ->
     Input chaincodeSpec = Some input ->
     LaunchInit cs cccid spec w = Returns None w1 ->
     InvokeInit cs ctxt cccid spec w = Returns (None, Some e) w1).
Proof.
  intros Hm e. split; [reflexivity|]. split.
  - intros spec w cspec Hs Hi HL. unfold Invoke. rewrite Hs.
    unfold mbind at 1, go_mbind at 1, go_bind at 1. rewrite HL, Hi.
    unfold createCCMessage, set_Decorations. rewrite Hm. reflexivity.
  - intros spec w cspec Hs Hi HL. unfold InvokeInit.
    unfold mbind at 1, go_mbind at 1, go_bind at 1. rewrite HL, Hs, Hi.
    unfold createCCMessage, set_Decorations. rewrite Hm. reflexivity.
Qed.

(** X12. A chaincode spec without an input is not reported as an error:
    once the launch has succeeded, writing the decorations into the nil
    input makes [Invoke], [InvokeInit], [Execute] and [ExecuteInit]
    panic. *)
Theorem nil_input_panics (chaincodeSpec : ChaincodeSpec) (w w1 : World E) :
  Input chaincodeSpec = None ->
  (forall spec,
     cis_GetChaincodeSpec spec = Some chaincodeSpec ->
     Launch cs cccid spec w = Returns None w1 ->
     Invoke cs ctxt cccid spec w = Panics /\
     Execute cs ctxt cccid spec w = Panics) /\
  (forall spec,
     cds_GetChaincodeSpec spec = Some chaincodeSpec ->
     LaunchInit cs cccid spec w = Returns None w1 ->
     InvokeInit cs ctxt cccid spec w = Panics /\
     ExecuteInit cs ctxt cccid spec w = Panics).
Proof.
  intros Hi. split.
  - intros spec Hs HL.
    assert (HI : Invoke cs ctxt cccid spec w = Panics).
    { unfold Invoke. rewrite Hs.
      unfold mbind at 1, go_mbind at 1, go_bind at 1. rewrite HL, Hi. reflexivity. }
    split; [exact HI|]. rewrite Execute_eq, HI. reflexivity.
  - intros spec Hs HL.
    assert (HI : InvokeInit cs ctxt cccid spec w = Panics).
    { unfold InvokeInit.
      unfold mbind at 1, go_mbind at 1, go_bind at 1. rewrite HL, Hs, Hi.
      reflexivity. }
    split; [exact HI|]. rewrite ExecuteInit_eq, HI. reflexivity.
Qed.

(** X13. Of an invocation spec, [Invoke] reads the name of the chaincode
    and the arguments of the input, nothing else: two specs that agree on
    these are invoked alike. Decorations the caller left in the input are
    overwritten by those of the invocation context. *)
Theorem Invoke_reads_name_and_arguments
    (spec spec' : option ChaincodeInvocationSpec)
    (chaincodeSpec chaincodeSpec' : ChaincodeSpec)
    (input input' : ChaincodeInput) (w : World E) :
  cis_GetChaincodeSpec spec = Some chaincodeSpec ->
  cis_GetChaincodeSpec spec' = Some chaincodeSpec' ->
  ChaincodeSpec_Name (Some chaincodeSpec) = ChaincodeSpec_Name (Some chaincodeSpec') ->
  Input chaincodeSpec = Some input ->
  Input chaincodeSpec' = Some input' ->
  Args input = Args input' ->
  Invoke cs ctxt cccid spec w = Invoke cs ctxt cccid spec' w /\
  Execute cs ctxt cccid spec w = Execute cs ctxt cccid spec' w.
Proof.
  intros Hs Hs' Hn Hi Hi' Ha.
  assert (HL : Launch cs cccid spec w = Launch cs cccid spec' w).
  { unfold Launch. rewrite Hs, Hs', Hn. reflexivity. }
  assert (HI : Invoke cs ctxt cccid spec w = Invoke cs ctxt cccid spec' w).
  { unfold Invoke. rewrite Hs, Hs'.
    unfold mbind, go_mbind, go_bind. rewrite HL, Hi, Hi'.
    unfold set_Decorations. rewrite Ha. reflexivity. }
  split; [exact HI|]. rewrite !Execute_eq, HI. reflexivity.
Qed.

(** X14. [Stop] hands back what [Runtime.Stop] returned, whatever that
    is, makes that one call and does not touch the registry itself. So
    while the handler of the stopped unit is still registered, a following
    [Launch] finds it and starts nothing. *)
Theorem Stop_leaves_the_registry (ccci : option ChaincodeContainerInfo)
    (spec : option ChaincodeInvocationSpec) (w : World E)
    (r : option error) (s : Sys E) :
  Runtime.Stop (Runtime cs) ccci (sys w) = (r, s) ->
  let w' := {| sys := s; calls := calls w ++ [Runtime_Stop_call ccci] |} in
  Stop cs ccci w = Returns r w' /\
  (forall h,
     HandlerRegistry s !! GetCanonicalName cccid = Some h ->
     (Stop cs ccci ≫= fun _ => Launch cs cccid spec) w = Returns None w').
Proof.
  intros HS w'.
  assert (H1 : Stop cs ccci w = Returns r w').
  { unfold Stop, Runtime_Stop. go_unfold. rewrite HS.
    destruct r; reflexivity. }
  split; [exact H1|].
  intros h Hh. unfold mbind, go_mbind, go_bind. rewrite H1.
  exact (Launch_present cs cccid spec w' h Hh).
Qed.

(** X15. Developer mode changes what [Launch] logs and nothing else: two
    supports with the same launcher and lifecycle return the same error,
    leave the same registry and collaborator state and make the same calls
    on collaborators, whatever their [UserRunsCC]. *)
Theorem Launch_developer_mode_only_logs (cs' : ChaincodeSupport E)
    (spec : option ChaincodeInvocationSpec) (w : World E) :
  Launcher cs' = Launcher cs ->
  Lifecycle cs' = Lifecycle cs ->
  match Launch cs cccid spec w, Launch cs' cccid spec w with
  | Returns r w1, Returns r' w1' =>
      r = r' /\ sys w1 = sys w1' /\
      collaborator_calls (calls w1) = collaborator_calls (calls w1')
  | Panics, Panics => True
  | _, _ => False
  end.
Proof.
  intros HLa HLi.
  destruct (HandlerRegistry (sys w) !! GetCanonicalName cccid) as [h|] eqn:Hh.
  { rewrite (Launch_present cs cccid spec w h Hh),
            (Launch_present cs' cccid spec w h Hh). repeat split. }
  destruct (ChaincodeSpec_Name (cis_GetChaincodeSpec spec)) as [n|] eqn:Hn.
  2:{ unfold Launch. go_unfold. rewrite Hh, Hn. exact I. }
  destruct (Lifecycle.ChaincodeContainerInfo (Lifecycle cs) (ChainID cccid) n (sys w))
    as [[ccci [err|]] s] eqn:Hl.
  - rewrite (Launch_unresolved cs cccid spec w n ccci err s Hh Hn Hl).
    rewrite <- HLi in Hl.
    rewrite (Launch_unresolved cs' cccid spec w n ccci err s Hh Hn Hl).
    split; [reflexivity|]. split; [reflexivity|].
    cbn [calls]. unfold collaborator_calls. rewrite !List.filter_app.
    destruct (UserRunsCC cs), (UserRunsCC cs'); reflexivity.
  - rewrite (Launch_resolved cs cccid spec w n ccci s Hh Hn Hl).
    rewrite <- HLi in Hl.
    rewrite (Launch_resolved cs' cccid spec w n ccci s Hh Hn Hl).
    rewrite HLa.
    destruct (Launcher.Launch (Launcher cs) ccci s) as [r0 s'].
    repeat split.
Qed.

End requests.

(** ** The deploy-time path and the shared state *)

Section deploy_and_state.
Context {E : Type} `{!Imports E}.
Variables (cs : ChaincodeSupport E) (ctxt : context_Context) (cccid : CCContext).

(** X16. Of a deployment spec, [InvokeInit] reads the container info made
    from it and the arguments of the constructor input, nothing else. *)
Theorem InvokeInit_reads_container_info_and_arguments
    (spec spec' : option ChaincodeDeploymentSpec)
    (chaincodeSpec chaincodeSpec' : ChaincodeSpec)
    (input input' : ChaincodeInput) (w : World E) :
  DeploymentSpecToChaincodeContainerInfo spec
    = DeploymentSpecToChaincodeContainerInfo spec' ->
  cds_GetChaincodeSpec spec = Some chaincodeSpec ->
  cds_GetChaincodeSpec spec' = Some chaincodeSpec' ->
  Input chaincodeSpec = Some input ->
  Input chaincodeSpec' = Some input' ->
  Args input = Args input' ->
  InvokeInit cs ctxt cccid spec w = InvokeInit cs ctxt cccid spec' w /\
  ExecuteInit cs ctxt cccid spec w = ExecuteInit cs ctxt cccid spec' w.
Proof.
  intros Hc Hs Hs' Hi Hi' Ha.
  assert (HL : LaunchInit cs cccid spec w = LaunchInit cs cccid spec' w).
  { unfold LaunchInit. rewrite Hc. reflexivity. }
  assert (HI : InvokeInit cs ctxt cccid spec w = InvokeInit cs ctxt cccid spec' w).
  { unfold InvokeInit. unfold mbind, go_mbind, go_bind.
    rewrite HL, Hs, Hs', Hi, Hi'. unfold set_Decorations. rewrite Ha. reflexivity. }
  split; [exact HI|]. rewrite !ExecuteInit_eq, HI. reflexivity.
Qed.

(** X17. On a unit that is running, [ExecuteInit] is one call of its
    handler with the INIT message: the launcher is not called again, and
    what comes back is the handler's answer interpreted, or its error as
    [failed to execute transaction T: error sending: ...]. *)
Theorem ExecuteInit_on_running_unit (spec : option ChaincodeDeploymentSpec)
    (w : World E) (h : HandlerRef) (chaincodeSpec : ChaincodeSpec)
    (input : ChaincodeInput) (payload : string) :
  HandlerRegistry (sys w) !! GetCanonicalName cccid = Some h ->
  cds_GetChaincodeSpec spec = Some chaincodeSpec ->
  Input chaincodeSpec = Some input ->
  proto_Marshal
    (Some {| Args := Args input; Decorations := ProposalDecorations cccid |})
    = (payload, None) ->
  let msg :=
    Some {| Type_ := ChaincodeMessage_INIT; Payload := payload;
            Txid := TxID cccid; msg_ChaincodeEvent := None;
            ChannelId := ChainID cccid |} in
  ExecuteInit cs ctxt cccid spec w =
  let '((ccresp, err), s) :=
    Handler_Execute h ctxt cccid msg (ExecuteTimeout cs) (sys w) in
  Returns
    match err with
    | Some err =>
        (None, None,
         Some (Wrap (WithMessage err "error sending")
                    ("failed to execute transaction " +:+ TxID cccid)))
    | None => processChaincodeExecutionResult cccid ccresp None
    end
    {| sys := s;
       calls := calls w ++
                [Logger_Debugf_call ("canonical name: " +:+ GetCanonicalName cccid);
                 Handler_Execute_call h ctxt cccid msg (ExecuteTimeout cs)] |}.
Proof.
  intros Hh Hs Hi Hm msg.
  rewrite ExecuteInit_eq.
  rewrite (InvokeInit_launched cs ctxt cccid spec w w chaincodeSpec input payload
             (LaunchInit_present cs cccid spec w h Hh) Hs Hi Hm).
  fold msg. rewrite (execute_present cs ctxt cccid msg w h Hh).
  destruct (Handler_Execute h ctxt cccid msg (ExecuteTimeout cs) (sys w))
    as [[ccresp [err|]] s]; rewrite <- app_assoc; reflexivity.
Qed.

Lemma Launch_keeps (P : Sys E -> Prop) spec w r w' :
  (forall chainID name s,
     P s -> P (snd (Lifecycle.ChaincodeContainerInfo (Lifecycle cs) chainID name s))) ->
  (forall ccci s, P s -> P (snd (Launcher.Launch (Launcher cs) ccci s))) ->
  P (sys w) -> Launch cs cccid spec w = Returns r w' -> P (sys w').
Proof.
  intros HLi HLa Hw.
  destruct (HandlerRegistry (sys w) !! GetCanonicalName cccid) as [h|] eqn:Hh.
  { rewrite (Launch_present cs cccid spec w h Hh). intros [= _ <-]. exact Hw. }
  destruct (ChaincodeSpec_Name (cis_GetChaincodeSpec spec)) as [n|] eqn:Hn.
  2:{ unfold Launch. go_unfold. rewrite Hh, Hn. discriminate. }
  pose proof (HLi (ChainID cccid) n (sys w) Hw) as H1.
  destruct (Lifecycle.ChaincodeContainerInfo (Lifecycle cs) (ChainID cccid) n (sys w))
    as [[ccci [err|]] s] eqn:Hl; simpl in H1.
  - rewrite (Launch_unresolved cs cccid spec w n ccci err s Hh Hn Hl).
    intros [= _ <-]. exact H1.
  - rewrite (Launch_resolved cs cccid spec w n ccci s Hh Hn Hl).
    pose proof (HLa ccci s H1) as H2.
    destruct (Launcher.Launch (Launcher cs) ccci s) as [r0 s']. simpl in H2.
    intros [= _ <-]. exact H2.
Qed.

Lemma LaunchInit_keeps (P : Sys E -> Prop) spec w r w' :
  (forall ccci s, P s -> P (snd (Launcher.Launch (Launcher cs) ccci s))) ->
  P (sys w) -> LaunchInit cs cccid spec w = Returns r w' -> P (sys w').
Proof.
  intros HLa Hw.
  destruct (HandlerRegistry (sys w) !! GetCanonicalName cccid) as [h|] eqn:Hh.
  { rewrite (LaunchInit_present cs cccid spec w h Hh). intros [= _ <-]. exact Hw. }
  destruct (DeploymentSpecToChaincodeContainerInfo spec) as [ccci|] eqn:Hc.
  2:{ unfold LaunchInit. go_unfold. rewrite Hh, Hc. discriminate. }
  rewrite (LaunchInit_absent cs cccid spec w ccci Hh Hc). cbv zeta.
  pose proof (HLa (Some (set_Version ccci (Version cccid))) (sys w) Hw) as H2.
  destruct (Launcher.Launch (Launcher cs) _ (sys w)) as [r0 s']. simpl in H2.
  intros [= _ <-]. exact H2.
Qed.

Lemma execute_keeps (P : Sys E -> Prop) msg w r w' :
  (forall h c i m t s, P s -> P (snd (Handler_Execute h c i m t s))) ->
  P (sys w) -> execute cs ctxt cccid msg w = Returns r w' -> P (sys w').
Proof.
  intros HEx Hw.
  destruct (HandlerRegistry (sys w) !! GetCanonicalName cccid) as [h|] eqn:Hh.
  - rewrite (execute_present cs ctxt cccid msg w h Hh).
    pose proof (HEx h ctxt cccid msg (ExecuteTimeout cs) (sys w) Hw) as H1.
    destruct (Handler_Execute h ctxt cccid msg (ExecuteTimeout cs) (sys w))
      as [[ccresp err] s]. simpl in H1.
    intros [= _ <-]. exact H1.
  - rewrite (execute_absent cs ctxt cccid msg w Hh). intros [= _ <-]. exact Hw.
Qed.

(** X18. The orchestrator writes to the registry and to the state of the
    collaborators only through the collaborators: a property of that state
    which the lifecycle, the launcher and the handlers keep is kept by
    [Execute] and [ExecuteInit]. *)
Theorem Execute_keeps_collaborator_invariants (P : Sys E -> Prop) (w : World E) :
  (forall chainID name s,
     P s -> P (snd (Lifecycle.ChaincodeContainerInfo (Lifecycle cs) chainID name s))) ->
  (forall ccci s, P s -> P (snd (Launcher.Launch (Launcher cs) ccci s))) ->
  (forall h c i m t s, P s -> P (snd (Handler_Execute h c i m t s))) ->
  P (sys w) ->
  (forall spec r w', Execute cs ctxt cccid spec w = Returns r w' -> P (sys w')) /\
  (forall spec r w', ExecuteInit cs ctxt cccid spec w = Returns r w' -> P (sys w')).
Proof.
  intros HLi HLa HEx Hw. split.
  - intros spec r w' H. apply Execute_inv in H.
    destruct H as (resp & err & H & _). revert H. unfold Invoke.
    destruct (cis_GetChaincodeSpec spec) as [cspec|];
      [|intros [= _ _ <-]; exact Hw].
    unfold mbind at 1, go_mbind at 1, go_bind at 1.
    destruct (Launch cs cccid spec w) as [e w1|] eqn:HL; [|discriminate].
    pose proof (Launch_keeps P spec w e w1 HLi HLa Hw HL) as H1.
    destruct e as [e|]; [intros [= _ _ <-]; exact H1|].
    destruct (Input cspec) as [input|]; [|discriminate].
    destruct (createCCMessage _ _ _ _) as [ccMsg [e|]];
      [intros [= _ _ <-]; exact H1|].
    intros H. exact (execute_keeps P ccMsg w1 _ w' HEx H1 H).
  - intros spec r w' H. apply ExecuteInit_inv in H.
    destruct H as (resp & err & H & _). revert H. unfold InvokeInit.
    unfold mbind at 1, go_mbind at 1, go_bind at 1.
    destruct (LaunchInit cs cccid spec w) as [e w1|] eqn:HL; [|discriminate].
    pose proof (LaunchInit_keeps P spec w e w1 HLa Hw HL) as H1.
    destruct e as [e|]; [intros [= _ _ <-]; exact H1|].
    destruct (cds_GetChaincodeSpec spec) as [cspec|];
      [|intros [= _ _ <-]; exact H1].
    destruct (Input cspec) as [input|]; [|discriminate].
    destruct (createCCMessage _ _ _ _) as [ccMsg [e|]];
      [intros [= _ _ <-]; exact H1|].
    intros H. exact (execute_keeps P ccMsg w1 _ w' HEx H1 H).
Qed.

End deploy_and_state.

(** ** The further statements on the test doubles *)

Module more_on_doubles.
Import doubles more_doubles.

Lemma Execute_event_stamped_witness :
  ev_ChaincodeId (stamp "token-contract" "t1" an_event) = Name cccid /\
  ev_TxId (stamp "token-contract" "t1" an_event) = TxID cccid.
Proof.
  refine (proj1 (Execute_event_stamped cs ctxt cccid) invocation (served_by 1%N)
            (world_after idle (Invoke cs ctxt cccid invocation (served_by 1%N)))
            (Some {| Status := 200; Message := "OK"; resp_Payload := "ok" |})
            (stamp "token-contract" "t1" an_event) None _).
  vm_compute. reflexivity.
Defined.

Lemma processChaincodeExecutionResult_event_iff_witness :
  is_Some (snd (fst (processChaincodeExecutionResult cccid
                       (Some (reply cccid 7 "insufficient funds")) None))).
Proof.
  refine (proj2 (processChaincodeExecutionResult_event_iff cccid
                   (Some (reply cccid 7 "insufficient funds")) None) _).
  exists (reply cccid 7 "insufficient funds").
  split; [reflexivity|]. split; [reflexivity|]. split; [eexists; reflexivity|].
  right. split; [simpl; lia | reflexivity].
Defined.

Lemma processChaincodeExecutionResult_ignores_unit_identity_witness :
  processChaincodeExecutionResult cccid
    (Some {| Type_ := 6; Payload := "ok"; Txid := "t1";
             msg_ChaincodeEvent :=
               Some {| ev_ChaincodeId := "someone-else"; ev_TxId := "t0";
                       EventName := "transferred"; ev_Payload := "42" |};
             ChannelId := "ch1" |}) None
  = processChaincodeExecutionResult cccid (Some (reply cccid 6 "ok")) None.
Proof.
  refine (processChaincodeExecutionResult_ignores_unit_identity cccid
            (reply cccid 6 "ok") an_event "someone-else" "t0" None _).
  reflexivity.
Defined.

Lemma Invoke_message_or_error_witness :
  fst (fst (match Invoke cs ctxt cccid invocation (served_by 9%N) with
            | Returns r w => (r, w)
            | Panics => ((None, None), idle)
            end)) = None.
Proof.
  refine (proj1 (proj2 (Invoke_message_or_error cs ctxt cccid))
            invocation (served_by 9%N)
            (world_after idle (Invoke cs ctxt cccid invocation (served_by 9%N)))
            _ (WithMessage (New "timeout expired while executing transaction")
                 "error sending") _).
  vm_compute. reflexivity.
Defined.

Lemma Invoke_consults_each_collaborator_once_witness :
  exists new : list Call,
    calls (world_after idle (Invoke cs ctxt cccid invocation idle))
      = calls idle ++ new /\
    (lifecycle_calls new <= 1)%nat /\
    (launches new <= lifecycle_calls new)%nat /\
    (handler_calls new <= 1)%nat /\
    Forall (sent_as cs ctxt cccid 5) new /\
    (handler_calls new = 0%nat \/
     exists pre c,
       new = pre ++ [c] /\ is_Handler_Execute_call c = true /\
       handler_calls pre = 0%nat).
Proof.
  refine (Invoke_consults_each_collaborator_once cs ctxt cccid invocation idle
            (world_after idle (Invoke cs ctxt cccid invocation idle))
            (Some (reply cccid 6 "ok"), None) _).
  vm_compute. reflexivity.
Defined.

Lemma InvokeInit_consults_each_collaborator_once_witness :
  exists new : list Call,
    calls (world_after idle (InvokeInit cs ctxt cccid deployment idle))
      = calls idle ++ new /\
    lifecycle_calls new = 0%nat /\
    (launches new <= 1)%nat /\
    (handler_calls new <= 1)%nat /\
    Forall (sent_as cs ctxt cccid 3) new /\
    (handler_calls new = 0%nat \/
     exists pre c,
       new = pre ++ [c] /\ is_Handler_Execute_call c = true /\
       handler_calls pre = 0%nat).
Proof.
  refine (InvokeInit_consults_each_collaborator_once cs ctxt cccid deployment idle
            (world_after idle (InvokeInit cs ctxt cccid deployment idle))
            (Some (reply cccid 6 "ok"), None) _).
  vm_compute. reflexivity.
Defined.

Lemma Execute_on_running_unit_witness :
  Execute cs ctxt cccid invocation (served_by 1%N) =
  Returns
    (Some {| Status := 200; Message := "OK"; resp_Payload := "ok" |},
     Some {| ev_ChaincodeId := "token-contract"; ev_TxId := "t1";
             EventName := "transferred"; ev_Payload := "42" |},
     None)
    {| sys := sys (served_by 1%N);
       calls :=
         [Logger_Debugf_call "canonical name: token-contract:v1";
          Handler_Execute_call 1%N ctxt cccid
            (Some {| Type_ := 5; Payload := "transfer,alice,bob"; Txid := "t1";
                     msg_ChaincodeEvent := None; ChannelId := "ch1" |})
            30000000000] |}.
Proof.
  assert (Hh : HandlerRegistry (sys (served_by 1%N)) !! GetCanonicalName cccid
               = Some 1%N) by (vm_compute; reflexivity).
  rewrite (Execute_on_running_unit cs ctxt cccid invocation (served_by 1%N) 1%N
             chaincodeSpec
             {| Args := ["transfer"; "alice"; "bob"]; Decorations := ∅ |}
             "transfer,alice,bob" Hh eq_refl eq_refl eq_refl).
  vm_compute. reflexivity.
Defined.

Lemma Execute_lifecycle_failure_witness :
  exists e w',
    Execute cs ctxt (cccid_of "unknown") (invocation_of "unknown" (Some transfer)) idle
      = Returns (None, None, Some e) w' /\
    sys w' = sys idle /\
    collaborator_calls (calls w') =
      collaborator_calls (calls idle) ++
      [Lifecycle_ChaincodeContainerInfo_call "ch1" "unknown"] /\
    Error e =
      "failed to execute transaction " +:+ "t1" +:+ ": [channel " +:+ "ch1" +:+
      "] failed to get chaincode container info for " +:+ "unknown" +:+ ": " +:+
      "could not find chaincode with name 'unknown'".
Proof.
  refine (Execute_lifecycle_failure cs ctxt (cccid_of "unknown")
            (invocation_of "unknown" (Some transfer)) idle
            (spec_of "unknown" (Some transfer)) "unknown" None
            (New "could not find chaincode with name 'unknown'") (sys idle)
            _ _ _ _).
  - vm_compute. reflexivity.
  - reflexivity.
  - reflexivity.
  - reflexivity.
Defined.

Lemma launch_failure_is_final_witness :
  Invoke cs_any ctxt (cccid_of "broken") (invocation_of "broken" (Some transfer)) idle
    = Returns (None, Some (New "error starting container"))
        (world_after idle
           (Launch cs_any (cccid_of "broken") (invocation_of "broken" (Some transfer)) idle))
  /\
  Execute cs_any ctxt (cccid_of "broken") (invocation_of "broken" (Some transfer)) idle
    = Returns
        (None, None,
         Some (Wrap (New "error starting container")
                    ("failed to execute transaction " +:+ "t1")))
        (world_after idle
           (Launch cs_any (cccid_of "broken") (invocation_of "broken" (Some transfer)) idle)).
Proof.
  refine (proj1 (launch_failure_is_final cs_any ctxt (cccid_of "broken"))
            (invocation_of "broken" (Some transfer)) idle _
            (New "error starting container") (spec_of "broken" (Some transfer)) _ _).
  - reflexivity.
  - vm_compute. reflexivity.
Defined.

Lemma Execute_dispatch_after_launch_witness :
  exists w',
    Execute cs_silent ctxt cccid invocation idle =
      Returns
        (None, None,
         Some (Wrap (New ("unable to invoke chaincode " +:+ "token-contract:v1"))
                    ("failed to execute transaction " +:+ "t1"))) w' /\
    sys w' = sys (world_after idle (Launch cs_silent cccid invocation idle)) /\
    collaborator_calls (calls w') =
      collaborator_calls
        (calls (world_after idle (Launch cs_silent cccid invocation idle))).
Proof.
  assert (Hh : HandlerRegistry
                 (sys (world_after idle (Launch cs_silent cccid invocation idle)))
                 !! GetCanonicalName cccid = None) by (vm_compute; reflexivity).
  refine (proj1 (proj2 (Execute_dispatch_after_launch cs_silent ctxt cccid _ Hh))
            invocation idle chaincodeSpec
            {| Args := ["transfer"; "alice"; "bob"]; Decorations := ∅ |}
            "transfer,alice,bob" _ _ _ _).
  - reflexivity.
  - vm_compute. reflexivity.
  - reflexivity.
  - reflexivity.
Defined.

Lemma marshal_failure_after_launch_witness :
  @Invoke E strict_imports cs ctxt cccid
    (invocation_of "token-contract" (Some {| Args := []; Decorations := ∅ |})) idle
  = Returns
      (None,
       Some (WithMessage (New "proto: required field not set")
               "failed to create chaincode message"))
      (world_after idle
         (@Launch E strict_imports cs cccid
            (invocation_of "token-contract" (Some {| Args := []; Decorations := ∅ |}))
            idle)).
Proof.
  refine (proj1 (proj2
            (@marshal_failure_after_launch E strict_imports cs ctxt cccid _
               {| Args := []; Decorations := ∅ |} ""
               (New "proto: required field not set") _))
            (invocation_of "token-contract" (Some {| Args := []; Decorations := ∅ |}))
            idle
            (spec_of "token-contract" (Some {| Args := []; Decorations := ∅ |}))
            _ _ _).
  - reflexivity.
  - reflexivity.
  - reflexivity.
  - vm_compute. reflexivity.
Defined.

Lemma nil_input_panics_witness :
  Invoke cs ctxt cccid (invocation_of "token-contract" None) (served_by 1%N) = Panics /\
  Execute cs ctxt cccid (invocation_of "token-contract" None) (served_by 1%N) = Panics.
Proof.
  refine (proj1 (nil_input_panics cs ctxt cccid (spec_of "token-contract" None)
                   (served_by 1%N) (served_by 1%N) _)
            (invocation_of "token-contract" None) _ _).
  - reflexivity.
  - reflexivity.
  - vm_compute. reflexivity.
Defined.

Lemma Invoke_reads_name_and_arguments_witness :
  let spec' :=
    Some {| cis_ChaincodeSpec :=
              Some {| spec_Type := 2;
                      ChaincodeId :=
                        Some {| cid_Path := "github.com/elsewhere";
                                cid_Name := "token-contract"; cid_Version := "v9" |};
                      Input :=
                        Some {| Args := ["transfer"; "alice"; "bob"];
                                Decorations := {[ "caller" := "mallory" ]} |};
                      Timeout := 7 |} |} in
  Invoke cs ctxt cccid invocation idle = Invoke cs ctxt cccid spec' idle /\
  Execute cs ctxt cccid invocation idle = Execute cs ctxt cccid spec' idle.
Proof.
  intros spec'.
  refine (Invoke_reads_name_and_arguments cs ctxt cccid invocation spec'
            _ _ _ _ idle eq_refl eq_refl _ eq_refl eq_refl _).
  - reflexivity.
  - reflexivity.
Defined.

Lemma Stop_leaves_the_registry_witness :
  Stop cs (Some (container_info "token-contract")) (served_by 1%N) =
    Returns None
      {| sys := sys (served_by 1%N);
         calls := [Runtime_Stop_call (Some (container_info "token-contract"))] |} /\
  (Stop cs (Some (container_info "token-contract")) ≫=
     fun _ => Launch cs cccid invocation) (served_by 1%N) =
    Returns None
      {| sys := sys (served_by 1%N);
         calls := [Runtime_Stop_call (Some (container_info "token-contract"))] |}.
Proof.
  assert (Hh : HandlerRegistry (sys (served_by 1%N)) !! GetCanonicalName cccid
               = Some 1%N) by (vm_compute; reflexivity).
  pose proof (Stop_leaves_the_registry cs cccid (Some (container_info "token-contract"))
                invocation (served_by 1%N) None (sys (served_by 1%N)) eq_refl)
    as [H1 H2].
  split; [exact H1 | exact (H2 1%N Hh)].
Defined.

Lemma Launch_developer_mode_only_logs_witness :
  match Launch cs (cccid_of "unknown") (invocation_of "unknown" (Some transfer)) idle,
        Launch cs_dev (cccid_of "unknown") (invocation_of "unknown" (Some transfer)) idle
  with
  | Returns r w1, Returns r' w1' =>
      r = r' /\ sys w1 = sys w1' /\
      collaborator_calls (calls w1) = collaborator_calls (calls w1')
  | Panics, Panics => True
  | _, _ => False
  end.
Proof.
  refine (Launch_developer_mode_only_logs cs (cccid_of "unknown") cs_dev
            (invocation_of "unknown" (Some transfer)) idle _ _).
  - reflexivity.
  - reflexivity.
Defined.

Lemma InvokeInit_reads_container_info_and_arguments_witness :
  let spec' :=
    Some {| cds_ChaincodeSpec :=
              Some {| spec_Type := 1;
                      ChaincodeId :=
                        Some {| cid_Path := ""; cid_Name := "token-contract";
                                cid_Version := "v1" |};
                      Input :=
                        Some {| Args := ["transfer"; "alice"; "bob"];
                                Decorations := {[ "caller" := "mallory" ]} |};
                      Timeout := 7 |};
            CodePackage := ""; ExecEnv := 0 |} in
  InvokeInit cs ctxt cccid deployment idle = InvokeInit cs ctxt cccid spec' idle /\
  ExecuteInit cs ctxt cccid deployment idle = ExecuteInit cs ctxt cccid spec' idle.
Proof.
  intros spec'.
  refine (InvokeInit_reads_container_info_and_arguments cs ctxt cccid deployment spec'
            _ _ _ _ idle _ eq_refl eq_refl eq_refl eq_refl _).
  - reflexivity.
  - reflexivity.
Defined.

Lemma ExecuteInit_on_running_unit_witness :
  ExecuteInit cs ctxt cccid deployment (served_by 2%N) =
  Returns
    (None,
     Some {| ev_ChaincodeId := "token-contract"; ev_TxId := "t1";
             EventName := "transferred"; ev_Payload := "42" |},
     Some (New "transaction returned with failure: insufficient funds"))
    {| sys := sys (served_by 2%N);
       calls :=
         [Logger_Debugf_call "canonical name: token-contract:v1";
          Handler_Execute_call 2%N ctxt cccid
            (Some {| Type_ := 3; Payload := "transfer,alice,bob"; Txid := "t1";
                     msg_ChaincodeEvent := None; ChannelId := "ch1" |})
            30000000000] |}.
Proof.
  assert (Hh : HandlerRegistry (sys (served_by 2%N)) !! GetCanonicalName cccid
               = Some 2%N) by (vm_compute; reflexivity).
  rewrite (ExecuteInit_on_running_unit cs ctxt cccid deployment (served_by 2%N) 2%N
             chaincodeSpec
             {| Args := ["transfer"; "alice"; "bob"]; Decorations := ∅ |}
             "transfer,alice,bob" Hh eq_refl eq_refl eq_refl).
  vm_compute. reflexivity.
Defined.

(** On the test doubles the unit [broken] is never among the units
    started, and an invocation keeps it so. *)
Lemma Execute_keeps_collaborator_invariants_witness :
  Forall (fun name => name <> "broken")
    (ext (sys (world_after idle (Execute cs ctxt cccid invocation idle)))).
Proof.
  refine (proj1 (Execute_keeps_collaborator_invariants cs ctxt cccid
                   (fun s => Forall (fun name => name <> "broken") (ext s))
                   idle _ _ _ _)
            invocation
            (Some {| Status := 200; Message := "OK"; resp_Payload := "ok" |},
             Some (stamp "token-contract" "t1" an_event), None)
            (world_after idle (Execute cs ctxt cccid invocation idle)) _).
  - intros chainID name s Hs. simpl.
    destruct (String.eqb name "token-contract"); exact Hs.
  - intros [ccci|] s Hs; simpl; [|exact Hs].
    destruct (String.eqb (ccci_Name ccci) "broken") eqn:Hb; simpl; [exact Hs|].
    apply Forall_app. split; [exact Hs|].
    constructor; [|constructor].
    intros Heq. rewrite Heq in Hb. discriminate.
  - intros h c i m t s Hs. simpl. unfold handler_execute.
    destruct h as [|[p|p|]]; try exact Hs; destruct p; try exact Hs;
      destruct p; exact Hs.
  - constructor.
  - vm_compute. reflexivity.
Defined.

End more_on_doubles.
